(** * finance-tracker: the command interpreter and the ledger operations

    A shallow embedding of [backend/main.py] of the finance tracker, in the
    two revisions the specification draws on:

    - [Rev155147] follows [main_20250909155147.py]: keyword parser with
      category extraction and id lookup, budget warnings, budget upsert,
      calendar-aware recurring rules;
    - [Rev235636] follows [main_20250909235636.py]: the later, reduced
      revision with the edit endpoint.

    Conventions of the model.
    - A Python [str] is a [list ascii]; only ASCII text is modelled (code
      points above 127 are carried along unchanged and belong to no
      character class).
    - A Python [float] is an exact rational [Q]: sums, differences and the
      budget ratio are computed without rounding.
    - The SQL tables are lists of rows in rowid order; a new row receives
      the id one above the largest id in its table.
    - [datetime.utcnow()] and [date.today()] are arguments of the
      operations that read them. *)

From Stdlib Require Import ZArith QArith Ascii String List Bool Lia Permutation.
From Stdlib Require Import Qround Sorted.
Import ListNotations.

Set Implicit Arguments.

Local Open Scope Z_scope.

(* ================================================================== *)
(** * Text: the [str] methods and the [in] operator                     *)
(* ================================================================== *)

Module Text.

Definition text := list ascii.

Definition txt (s : string) : text := list_ascii_of_string s.

Definition code (c : ascii) : N := N_of_ascii c.

Definition between (lo hi : N) (c : ascii) : bool :=
  ((lo <=? code c) && (code c <=? hi))%N.

Definition is_upper (c : ascii) : bool := between 65 90 c.
Definition is_lower (c : ascii) : bool := between 97 122 c.
Definition is_digit (c : ascii) : bool := between 48 57 c.

(** [str.isspace] on ASCII: TAB, LF, VT, FF, CR, FS, GS, RS, US, SPACE. *)
Definition is_space (c : ascii) : bool :=
  between 9 13 c || between 28 32 c.

(** [\w] on ASCII: letters, digits and the underscore. *)
Definition is_word (c : ascii) : bool :=
  is_upper c || is_lower c || is_digit c || (code c =? 95)%N.

Definition lower_char (c : ascii) : ascii :=
  if is_upper c then ascii_of_N (code c + 32) else c.

(** [text.lower()] *)
Definition lower (t : text) : text := map lower_char t.

Fixpoint starts_with (p t : text) : bool :=
  match p, t with
  | [], _ => true
  | _ :: _, [] => false
  | a :: p', b :: t' => Ascii.eqb a b && starts_with p' t'
  end.

(** [kw in t] *)
Fixpoint contains (kw t : text) : bool :=
  starts_with kw t ||
  match t with
  | [] => false
  | _ :: t' => contains kw t'
  end.

(** The longest prefix of [t] whose characters satisfy [p], and the rest. *)
Fixpoint span (p : ascii -> bool) (t : text) : text * text :=
  match t with
  | [] => ([], [])
  | c :: t' =>
      if p c then let (a, b) := span p t' in (c :: a, b) else ([], t)
  end.

Definition lstrip (t : text) : text := snd (span is_space t).
Definition rstrip (t : text) : text := rev (lstrip (rev t)).

(** [t.strip()] *)
Definition strip (t : text) : text := rstrip (lstrip t).

(** [t.isdigit()]: at least one character, all of them digits. *)
Definition isdigit (t : text) : bool :=
  match t with
  | [] => false
  | _ => forallb is_digit t
  end.

Definition digit_value (c : ascii) : Z := Z.of_N (code c) - 48.

(** [int(t)] for a text of decimal digits. *)
Definition int_of (t : text) : Z :=
  fold_left (fun acc c => 10 * acc + digit_value c) t 0.

(** [a == b] on strings *)
Fixpoint text_eqb (a b : text) : bool :=
  match a, b with
  | [], [] => true
  | x :: a', y :: b' => Ascii.eqb x y && text_eqb a' b'
  | _, _ => false
  end.

End Text.

Import Text.

(* ================================================================== *)
(** * The three regular expressions of the command path                 *)
(* ================================================================== *)

Module Regex.

(** ** [re.search(r"(\d+(\.\d{1,2})?)", text)]

    The search stops at the first digit of the text; [\d+] takes the
    whole run of digits that starts there, and the optional group takes
    a dot followed by one digit, or by two when a second one follows. *)

Definition fraction (rest : text) : text :=
  match rest with
  | dot :: d1 :: rest' =>
      if Ascii.eqb dot "."%char && is_digit d1 then
        match rest' with
        | d2 :: _ => if is_digit d2 then [dot; d1; d2] else [dot; d1]
        | [] => [dot; d1]
        end
      else []
  | _ => []
  end.

Fixpoint search_amount (t : text) : option text :=
  match t with
  | [] => None
  | c :: t' =>
      if is_digit c then
        let (ds, rest) := span is_digit t in Some (ds ++ fraction rest)
      else search_amount t'
  end.

(** [float(m.group())] of a matched numeral, as an exact rational. *)
Definition float_of (numeral : text) : Q :=
  let (ip, rest) := span is_digit numeral in
  match rest with
  | [] => inject_Z (int_of ip)
  | _ :: fs => Qmake (int_of (ip ++ fs)) (Z.to_pos (10 ^ Z.of_nat (length fs)))
  end.

(** ** [re.search(r"(?:on|for)\s+([a-zA-Z0-9 _-]+)", text)]

    At each position the alternatives are tried in order. [\s+] is
    greedy and gives characters back one at a time until the group,
    which needs at least one character of its class, can start. *)

Definition in_group_class (c : ascii) : bool :=
  is_lower c || is_upper c || is_digit c ||
  (code c =? 32)%N || (code c =? 95)%N || (code c =? 45)%N.

(** [\s+] keeps [n] of the whitespace characters [ws]; the group is read
    from what is left of them followed by [rest]. *)
Fixpoint try_ws (n : nat) (ws rest : text) : option text :=
  match n with
  | O => None
  | S n' =>
      match fst (span in_group_class (skipn n ws ++ rest)) with
      | [] => try_ws n' ws rest
      | g => Some g
      end
  end.

Definition match_ws_group (t : text) : option text :=
  let (ws, rest) := span is_space t in try_ws (List.length ws) ws rest.

Fixpoint match_alt (kws : list text) (t : text) : option text :=
  match kws with
  | [] => None
  | kw :: kws' =>
      match
        (if starts_with kw t then match_ws_group (skipn (List.length kw) t)
         else None)
      with
      | Some g => Some g
      | None => match_alt kws' t
      end
  end.

(** Group 1 of the leftmost match of [(?:kw1|kw2|...)\s+([a-zA-Z0-9 _-]+)]. *)
Fixpoint search_category (kws : list text) (t : text) : option text :=
  match match_alt kws t with
  | Some g => Some g
  | None =>
      match t with
      | [] => None
      | _ :: t' => search_category kws t'
      end
  end.

(** ** [re.search(r"\b(\d{1,6})\b", text)]

    [\d{1,6}] takes up to six digits and gives them back one at a time
    until a word boundary follows. *)

Definition boundary_after (n : nat) (t : text) : bool :=
  match skipn n t with
  | [] => true
  | c :: _ => negb (is_word c)
  end.

Fixpoint try_id (n : nat) (t : text) : option text :=
  match n with
  | O => None
  | S n' => if boundary_after n t then Some (firstn n t) else try_id n' t
  end.

Definition match_id (t : text) : option text :=
  try_id (Nat.min 6 (List.length (fst (span is_digit t)))) t.

(** [prev_word] tells whether the character before [t] is a word
    character; a match may start only where it is not. *)
Fixpoint search_id_from (prev_word : bool) (t : text) : option text :=
  match t with
  | [] => None
  | c :: t' =>
      match (if negb prev_word && is_digit c then match_id t else None) with
      | Some ds => Some ds
      | None => search_id_from (is_word c) t'
      end
  end.

Definition search_id (t : text) : option text := search_id_from false t.

End Regex.

Import Regex.

(* ================================================================== *)
(** * Calendar: [datetime.date], [datetime.datetime], [calendar]        *)
(* ================================================================== *)

Module Calendar.

Record date := mkdate { year : Z; month : Z; day : Z }.

Definition MINYEAR : Z := 1.
Definition MAXYEAR : Z := 9999.

(** [calendar.isleap] *)
Definition isleap (y : Z) : bool :=
  (y mod 4 =? 0) && (negb (y mod 100 =? 0) || (y mod 400 =? 0)).

Definition mdays (m : Z) : Z :=
  match m with
  | 1 => 31 | 2 => 28 | 3 => 31 | 4 => 30 | 5 => 31 | 6 => 30
  | 7 => 31 | 8 => 31 | 9 => 30 | 10 => 31 | 11 => 30 | 12 => 31
  | _ => 0
  end.

(** [calendar.monthrange(y, m)[1]]: the number of days of month [m]. *)
Definition monthrange (y m : Z) : Z :=
  mdays m + (if (m =? 2) && isleap y then 1 else 0).

Definition valid_date (d : date) : bool :=
  (MINYEAR <=? year d) && (year d <=? MAXYEAR) &&
  (1 <=? month d) && (month d <=? 12) &&
  (1 <=? day d) && (day d <=? monthrange (year d) (month d)).

(** The constructor [date(y, m, d)]; [None] stands for its ValueError. *)
Definition new_date (y m d : Z) : option date :=
  let r := mkdate y m d in if valid_date r then Some r else None.

Definition date_eqb (a b : date) : bool :=
  (year a =? year b) && (month a =? month b) && (day a =? day b).

(** Dates compare as the triples (year, month, day). *)
Definition date_ltb (a b : date) : bool :=
  (year a <? year b) ||
  ((year a =? year b) &&
   ((month a <? month b) || ((month a =? month b) && (day a <? day b)))).

Definition date_leb (a b : date) : bool := date_ltb a b || date_eqb a b.

(** ** Ordinals, as [date.toordinal] computes them *)

Definition days_before_year (y : Z) : Z :=
  let p := y - 1 in p * 365 + p / 4 - p / 100 + p / 400.

Definition days_before_month (y m : Z) : Z :=
  match m with
  | 1 => 0 | 2 => 31 | 3 => 59 | 4 => 90 | 5 => 120 | 6 => 151
  | 7 => 181 | 8 => 212 | 9 => 243 | 10 => 273 | 11 => 304 | 12 => 334
  | _ => 0
  end + (if (2 <? m) && isleap y then 1 else 0).

Definition toordinal (d : date) : Z :=
  days_before_year (year d) + days_before_month (year d) (month d) + day d.

(** ** [date + timedelta(days=n)]: [n] steps to the following day;
    [None] stands for the OverflowError past year 9999. *)

Definition next_day (d : date) : date :=
  if day d <? monthrange (year d) (month d) then
    mkdate (year d) (month d) (day d + 1)
  else if month d <? 12 then mkdate (year d) (month d + 1) 1
  else mkdate (year d + 1) 1 1.

Fixpoint plus_days (n : nat) (d : date) : date :=
  match n with
  | O => d
  | S n' => plus_days n' (next_day d)
  end.

Definition date_add_days (d : date) (n : nat) : option date :=
  let r := plus_days n d in
  if year r <=? MAXYEAR then Some r else None.

(** ** [datetime]: a date and the time of day in microseconds *)

Record datetime := mkdatetime { dt_date : date; dt_time : Z }.

(** [datetime.combine(d, datetime.min.time())] and [datetime(y, m, 1)]. *)
Definition midnight (d : date) : datetime := mkdatetime d 0.

Definition datetime_leb (a b : datetime) : bool :=
  date_ltb (dt_date a) (dt_date b) ||
  (date_eqb (dt_date a) (dt_date b) && (dt_time a <=? dt_time b)).

(** [datetime(now.year, now.month, 1)] *)
Definition month_start (now : datetime) : datetime :=
  midnight (mkdate (year (dt_date now)) (month (dt_date now)) 1).

(** The constructor [datetime(y, m, d, hh, mm, ss)] for a time of day
    within range; [None] stands for the ValueError of the date. *)
Definition new_datetime (y m d hh mm ss : Z) : option datetime :=
  match new_date y m d with
  | Some dt => Some (mkdatetime dt (((hh * 60 + mm) * 60 + ss) * 1000000))
  | None => None
  end.

End Calendar.

Import Calendar.

(* ================================================================== *)
(** * What both revisions take from Python and from the SQL store       *)
(* ================================================================== *)

Module Runtime.

(** The id an INTEGER PRIMARY KEY column gives to a new row. *)
Definition fresh_id (ids : list Z) : Z := 1 + fold_right Z.max 0 ids.

(** Python's [sum] over floats: from 0, left to right. *)
Definition sum (l : list Q) : Q := fold_left Qplus l 0%Q.


(** A [dict] from strings to floats, in insertion order. *)
Definition dict := list (text * Q).

(** [d.get(k, default)] *)
Fixpoint dict_get (k : text) (d : dict) (default : Q) : Q :=
  match d with
  | [] => default
  | (k', v) :: d' => if text_eqb k' k then v else dict_get k d' default
  end.

(** [d[k] = v] *)
Fixpoint dict_set (k : text) (v : Q) (d : dict) : dict :=
  match d with
  | [] => [(k, v)]
  | (k', v') :: d' =>
      if text_eqb k' k then (k', v) :: d' else (k', v') :: dict_set k v d'
  end.

(** [round(x, 2)]: the nearest multiple of 1/100, a tie going to the even
    one. *)
Definition round2 (x : Q) : Q :=
  let s := (x * 100)%Q in
  let f := Qfloor s in
  let n := match (s - inject_Z f ?= 1 # 2)%Q with
           | Lt => f
           | Gt => f + 1
           | Eq => if Z.even f then f else f + 1
           end in
  n # 100.

(** [range(n - 1, -1, -1)] *)
Definition range_down (n : Z) : list Z :=
  map Z.of_nat (rev (seq 0 (Z.to_nat n))).
End Runtime.

Import Runtime.

(* ================================================================== *)
(** * Revision 2025-09-09 15:51:47                                      *)
(* ================================================================== *)

Module Rev155147.

(** ** Models *)

Record Transaction := mkTransaction {
  tx_id : Z;
  tx_amount : Q;
  tx_category : text;
  tx_description : text;
  tx_ts : datetime;
  tx_is_expense : bool;
  tx_recurring_id : option Z
}.

Record Budget := mkBudget {
  b_id : Z;
  b_category : text;
  b_monthly_amount : Q;
  b_currency : text
}.

Record Goal := mkGoal {
  g_id : Z;
  g_title : text;
  g_target_amount : Q;
  g_start_date : date;
  g_end_date : option date
}.

Inductive RecurrenceIntervalEnum := monthly | weekly.

(** The [interval] column holds the value of a [RecurrenceIntervalEnum];
    [next_run] is a nullable column. *)
Record RecurringTransaction := mkRecurring {
  r_id : Z;
  r_description : text;
  r_amount : Q;
  r_category : text;
  r_is_expense : bool;
  r_interval : RecurrenceIntervalEnum;
  r_next_run : option date
}.

Record database := mkDatabase {
  transactions : list Transaction;
  budgets : list Budget;
  goals : list Goal;
  recurring : list RecurringTransaction
}.

Definition empty_db : database := mkDatabase [] [] [] [].

(** ** [parse_command] *)

Inductive intent :=
| intent_add | intent_add_income | intent_summary | intent_list
| intent_delete | intent_get_tx (txid : Z) | intent_unknown.

Record entry := mkEntry {
  amount : option Q;
  category : text;
  description : text;
  date_ : datetime
}.

Inductive parsed :=
| parsed_add (e : entry)
| parsed_add_income (e : entry)
| parsed_summary
| parsed_list
| parsed_delete
| parsed_get_tx (txid : Z)
| parsed_unknown.

Definition intent_of (p : parsed) : intent :=
  match p with
  | parsed_add _ => intent_add
  | parsed_add_income _ => intent_add_income
  | parsed_summary => intent_summary
  | parsed_list => intent_list
  | parsed_delete => intent_delete
  | parsed_get_tx n => intent_get_tx n
  | parsed_unknown => intent_unknown
  end.

(** [kw in text] for a keyword of the source. *)
Definition has (kw : string) (t : text) : bool := contains (txt kw) t.

(** The dict both add branches return: [amt_match], [cat_match] and
    [category] as the source computes them, on the lowercased text [t];
    [kws] are the words of the category pattern and [default] the category
    without a match. *)
Definition extract (kws : list text) (default : string) (t : text)
    (utcnow : datetime) : entry :=
  let amt_match := search_amount t in
  let cat_match := search_category kws t in
  let cat := match cat_match with
             | Some g => strip g
             | None => txt default
             end in
  mkEntry (option_map float_of amt_match) cat t utcnow.

Definition parse_command (text0 : text) (utcnow : datetime) : parsed :=
  let t := lower text0 in
  if has "spent" t || has "bought" t || has "pay" t || has "purchase" t then
    parsed_add (extract [txt "on"; txt "for"] "general" t utcnow)
  else if has "earned" t || has "salary" t || has "received" t then
    parsed_add_income (extract [txt "from"; txt "for"] "income" t utcnow)
  else if has "summary" t || has "balance" t then parsed_summary
  else if has "list" t || has "transactions" t then parsed_list
  else if has "delete" t || has "remove" t then parsed_delete
  else if isdigit (strip t) && (Nat.ltb (List.length (strip t)) 7) then
    parsed_get_tx (int_of (strip t))
  else parsed_unknown.

(** ** [handle_command] *)

Inductive warning :=
| budget_exceeded (cat : text) (spent monthly : Q)
| budget_near_limit (cat : text) (spent monthly : Q).

Inductive content :=
| need_amount (desc cat : text)
| added (id : Z) (amt : Q) (cat : text) (is_expense : bool)
        (budget_warning : option warning)
| summary_of (income expense balance : Q)
| transactions_of (rows : list Transaction)
| transaction_of (tx : Transaction)
| deleted_id (txid : Z)
| not_understood (p : parsed).

Inductive response :=
| JSONResponse (c : content)
| HTTPException (status_code : Z) (detail : string).

(** [order_by(Transaction.ts.desc())]: rows with equal timestamps keep
    their rowid order. *)
Fixpoint insert_desc (x : Transaction) (l : list Transaction) :=
  match l with
  | [] => [x]
  | h :: l' =>
      if datetime_leb (tx_ts h) (tx_ts x) then x :: l
      else h :: insert_desc x l'
  end.

Definition order_by_ts_desc (rows : list Transaction) : list Transaction :=
  fold_right insert_desc [] rows.

(** The rows the budget check sums: expenses of one category dated on or
    after the first day of the current month. *)
Definition spent_rows (cat : text) (now : datetime)
    (rows : list Transaction) : list Transaction :=
  filter (fun r => text_eqb (tx_category r) cat && tx_is_expense r &&
                   datetime_leb (month_start now) (tx_ts r)) rows.

Definition month_spent (cat : text) (now : datetime)
    (rows : list Transaction) : Q :=
  sum (map tx_amount (spent_rows cat now rows)).

Definition find_budget (cat : text) (bs : list Budget) : option Budget :=
  find (fun b => text_eqb (b_category b) cat) bs.

Definition budget_check (cat : text) (spent : Q)
    (budget : option Budget) : option warning :=
  match budget with
  | None => None
  | Some b =>
      let pct := if negb (Qle_bool (b_monthly_amount b) 0)
                 then (spent / b_monthly_amount b)%Q else 0%Q in
      if Qle_bool 1 pct then
        Some (budget_exceeded cat spent (b_monthly_amount b))
      else if Qle_bool (85 # 100) pct then
        Some (budget_near_limit cat spent (b_monthly_amount b))
      else None
  end.

Definition set_transactions (db : database) (rows : list Transaction) :=
  mkDatabase rows (budgets db) (goals db) (recurring db).

(** The add branch; [now] is the clock reading of the budget check. *)
Definition add_entry (db : database) (is_expense : bool) (e : entry)
    (now : datetime) : response * database :=
  match amount e with
  | None => (JSONResponse (need_amount (description e) (category e)), db)
  | Some amt =>
      let tx := mkTransaction (fresh_id (map tx_id (transactions db))) amt
                  (category e) (description e) (date_ e) is_expense None in
      let db' := set_transactions db (transactions db ++ [tx]) in
      let spent := month_spent (tx_category tx) now (transactions db') in
      let budget := find_budget (tx_category tx) (budgets db') in
      let warn := budget_check (tx_category tx) spent budget in
      (JSONResponse (added (tx_id tx) (tx_amount tx) (tx_category tx)
                           (tx_is_expense tx) warn), db')
  end.

Definition find_transaction (txid : Z) (rows : list Transaction) :=
  find (fun r => tx_id r =? txid) rows.

(** [payload.get("text")] is [None] when the key is missing; [utcnow] is
    the clock reading of [parse_command], [now] the one of the budget
    check. *)
Definition handle_command (db : database) (payload_text : option text)
    (utcnow now : datetime) : response * database :=
  match payload_text with
  | None | Some [] => (HTTPException 400 "text required", db)
  | Some text0 =>
      match parse_command text0 utcnow with
      | parsed_add e => add_entry db true e now
      | parsed_add_income e => add_entry db false e now
      | parsed_summary =>
          let rows := transactions db in
          let total_income :=
            sum (map tx_amount (filter (fun r => negb (tx_is_expense r)) rows)) in
          let total_expense :=
            sum (map tx_amount (filter (fun r => tx_is_expense r) rows)) in
          let balance := (total_income - total_expense)%Q in
          (JSONResponse (summary_of total_income total_expense balance), db)
      | parsed_list =>
          (JSONResponse
             (transactions_of (firstn 200 (order_by_ts_desc (transactions db)))),
           db)
      | parsed_get_tx txid =>
          match find_transaction txid (transactions db) with
          | None => (HTTPException 404 "transaction not found", db)
          | Some tx => (JSONResponse (transaction_of tx), db)
          end
      | parsed_delete =>
          match search_id text0 with
          | None => (HTTPException 400 "no id found to delete", db)
          | Some m =>
              let txid := int_of m in
              match find_transaction txid (transactions db) with
              | None => (HTTPException 404 "transaction not found", db)
              | Some tx =>
                  (JSONResponse (deleted_id txid),
                   set_transactions db
                     (filter (fun r => negb (tx_id r =? tx_id tx))
                             (transactions db)))
              end
          end
      | parsed_unknown =>
          (JSONResponse (not_understood parsed_unknown), db)
      end
  end.

(** ** [create_budget] *)

Record BudgetIn := mkBudgetIn {
  in_category : text;
  in_monthly_amount : Q;
  in_currency : text
}.

Inductive budget_action := updated | created.

Definition set_budgets (db : database) (bs : list Budget) :=
  mkDatabase (transactions db) bs (goals db) (recurring db).

(** Returns the reported action and budget id, and the committed
    database. *)
Definition create_budget (db : database) (b : BudgetIn)
    : (budget_action * Z) * database :=
  match find_budget (in_category b) (budgets db) with
  | Some existing =>
      ((updated, b_id existing),
       set_budgets db
         (map (fun x =>
                 if b_id x =? b_id existing then
                   mkBudget (b_id x) (b_category x)
                            (in_monthly_amount b) (in_currency b)
                 else x)
              (budgets db)))
  | None =>
      let nb := mkBudget (fresh_id (map b_id (budgets db))) (in_category b)
                         (in_monthly_amount b) (in_currency b) in
      ((created, b_id nb), set_budgets db (budgets db ++ [nb]))
  end.

(** ** [run_due_recurrences] *)

Record created_entry := mkCreated {
  c_recurring_id : Z;
  c_created_amount : Q;
  c_category : text
}.

Inductive run_result :=
| run_ok (created_list : list created_entry)
| run_raised.

(** [RecurringTransaction.next_run <= today]; a NULL date is not due. *)
Definition is_due (today : date) (r : RecurringTransaction) : bool :=
  match r_next_run r with
  | Some d => date_leb d today
  | None => false
  end.

(** The new [next_run] of a rule whose current one is [d]; [None] when
    the date arithmetic raises. *)
Definition advance (i : RecurrenceIntervalEnum) (d : date) : option date :=
  match i with
  | monthly =>
      let y := year d + (if month d =? 12 then 1 else 0) in
      let m := if month d =? 12 then 1 else month d + 1 in
      let day' := Z.min (day d) (monthrange y m) in
      new_date y m day'
  | weekly => date_add_days d 7
  end.

(** A transaction waiting for its id. *)
Definition pending := Z -> Transaction.

Definition recurring_tx (r : RecurringTransaction) (d : date) : pending :=
  fun id =>
    mkTransaction id (r_amount r) (r_category r)
      (txt "[recurring] " ++ r_description r) (midnight d)
      (r_is_expense r) (Some (r_id r)).

Definition set_next_run (r : RecurringTransaction) (d : date) :=
  mkRecurring (r_id r) (r_description r) (r_amount r) (r_category r)
              (r_is_expense r) (r_interval r) (Some d).

(** The loop over the table: the updated rules, the transactions added to
    the session and the [created] list; [None] when a step raises. *)
Fixpoint run_rules (today : date) (rules : list RecurringTransaction)
    : option (list RecurringTransaction * list pending * list created_entry) :=
  match rules with
  | [] => Some ([], [], [])
  | r :: rules' =>
      match r_next_run r with
      | Some d =>
          if date_leb d today then
            match advance (r_interval r) d with
            | None => None
            | Some d' =>
                match run_rules today rules' with
                | None => None
                | Some (rs, txs, cs) =>
                    Some (set_next_run r d' :: rs,
                          recurring_tx r d :: txs,
                          mkCreated (r_id r) (r_amount r) (r_category r) :: cs)
                end
            end
          else
            match run_rules today rules' with
            | None => None
            | Some (rs, txs, cs) => Some (r :: rs, txs, cs)
            end
      | None =>
          match run_rules today rules' with
          | None => None
          | Some (rs, txs, cs) => Some (r :: rs, txs, cs)
          end
      end
  end.

(** The INSERTs of a commit, in the order the rows were added. *)
Definition insert_all (rows : list Transaction) (new : list pending) :=
  fold_left (fun acc mk => acc ++ [mk (fresh_id (map tx_id acc))]) new rows.

Definition run_due_recurrences (db : database) (today : date)
    : run_result * database :=
  match run_rules today (recurring db) with
  | None => (run_raised, db)
  | Some (rs, txs, cs) =>
      (run_ok cs,
       mkDatabase (insert_all (transactions db) txs) (budgets db)
                  (goals db) rs)
  end.

(** ** The list and delete endpoints, goals and recurring rules *)

Inductive reply :=
| reply_created (id : Z)
| reply_deleted (deleted_id : Z)
| reply_not_found (detail : string)
| reply_raised.

Definition list_budgets (db : database) : list Budget := budgets db.

Definition delete_budget (db : database) (budget_id : Z) : reply * database :=
  match find (fun b => b_id b =? budget_id) (budgets db) with
  | None => (reply_not_found "budget not found", db)
  | Some b =>
      (reply_deleted budget_id,
       set_budgets db (filter (fun x => negb (b_id x =? b_id b)) (budgets db)))
  end.

Record GoalIn := mkGoalIn {
  gi_title : text;
  gi_target_amount : Q;
  gi_start_date : option date;
  gi_end_date : option date
}.

Definition set_goals (db : database) (gs : list Goal) :=
  mkDatabase (transactions db) (budgets db) gs (recurring db).

(** [start = g.start_date or date.today()] *)
Definition create_goal (db : database) (g : GoalIn) (today : date)
    : reply * database :=
  let start := match gi_start_date g with
               | Some d => d
               | None => today
               end in
  let ng := mkGoal (fresh_id (map g_id (goals db))) (gi_title g)
                   (gi_target_amount g) start (gi_end_date g) in
  (reply_created (g_id ng), set_goals db (goals db ++ [ng])).

Definition list_goals (db : database) : list Goal := goals db.

Definition delete_goal (db : database) (goal_id : Z) : reply * database :=
  match find (fun g => g_id g =? goal_id) (goals db) with
  | None => (reply_not_found "goal not found", db)
  | Some g =>
      (reply_deleted goal_id,
       set_goals db (filter (fun x => negb (g_id x =? g_id g)) (goals db)))
  end.

(** The request model after its defaults; [ri_next_run] is optional. *)
Record RecurringIn := mkRecurringIn {
  ri_description : text;
  ri_amount : Q;
  ri_category : text;
  ri_is_expense : bool;
  ri_interval : RecurrenceIntervalEnum;
  ri_next_run : option date
}.

Definition set_recurring (db : database) (rs : list RecurringTransaction) :=
  mkDatabase (transactions db) (budgets db) (goals db) rs.

(** [nr = r.next_run or (date.today() + timedelta(days=1))]: the sum is
    computed, and can overflow, only without a given date. *)
Definition create_recurring (db : database) (r : RecurringIn) (today : date)
    : reply * database :=
  match (match ri_next_run r with
         | Some d => Some d
         | None => date_add_days today 1
         end) with
  | None => (reply_raised, db)
  | Some nr =>
      let rr := mkRecurring (fresh_id (map r_id (recurring db)))
                  (ri_description r) (ri_amount r) (ri_category r)
                  (ri_is_expense r) (ri_interval r) (Some nr) in
      (reply_created (r_id rr), set_recurring db (recurring db ++ [rr]))
  end.

Definition list_recurring (db : database) : list RecurringTransaction :=
  recurring db.

Definition delete_recurring (db : database) (rid : Z) : reply * database :=
  match find (fun r => r_id r =? rid) (recurring db) with
  | None => (reply_not_found "recurring rule not found", db)
  | Some r =>
      (reply_deleted rid,
       set_recurring db
         (filter (fun x => negb (r_id x =? r_id r)) (recurring db)))
  end.

(** ** [get_trends] *)

(** [while m <= 0: m += 12; y -= 1], with a bound on the rounds. *)
Fixpoint roll_back (rounds : nat) (y m : Z) : Z * Z :=
  match rounds with
  | O => (y, m)
  | S rounds' =>
      if m <=? 0 then roll_back rounds' (y - 1) (m + 12) else (y, m)
  end.

(** One round adds 12 to [m]: [1 - m] rounds are more than the loop
    takes. *)
Definition month_back (y m : Z) : Z * Z := roll_back (Z.to_nat (1 - m)) y m.

(** The rows of one month, from its first day at 00:00:00 to its last day
    at 23:59:59; [None] when a constructor raises. *)
Definition month_rows (y m : Z) (rows : list Transaction)
    : option (list Transaction) :=
  match new_datetime y m 1 0 0 0 with
  | None => None
  | Some month_begin =>
      let last_day := monthrange y m in
      match new_datetime y m last_day 23 59 59 with
      | None => None
      | Some month_end =>
          Some (filter (fun r => datetime_leb month_begin (tx_ts r) &&
                                 datetime_leb (tx_ts r) month_end) rows)
      end
  end.

(** The loop over [ago], the numbers of months back: labels (the year and
    month that ["%b %Y"] prints), income and expense series. *)
Fixpoint trend_loop (today : date) (rows : list Transaction) (ago : list Z)
    : option (list (Z * Z) * list Q * list Q) :=
  match ago with
  | [] => Some ([], [], [])
  | i :: ago' =>
      let (y, m) := month_back (year today) (month today - i) in
      match month_rows y m rows with
      | None => None
      | Some rs =>
          let inc := sum (map tx_amount
                            (filter (fun r => negb (tx_is_expense r)) rs)) in
          let exp := sum (map tx_amount
                            (filter (fun r => tx_is_expense r) rs)) in
          match trend_loop today rows ago' with
          | None => None
          | Some (ls, incs, exps) =>
              Some ((y, m) :: ls, round2 inc :: incs, round2 exp :: exps)
          end
      end
  end.

Record trends := mkTrends {
  labels : list (Z * Z);
  income_series : list Q;
  expense_series : list Q;
  category_breakdown : dict
}.

(** [cat[r.category] = cat.get(r.category, 0) + r.amount] over the rows. *)
Definition breakdown (rows : list Transaction) : dict :=
  fold_left (fun cat r =>
               dict_set (tx_category r)
                        (dict_get (tx_category r) cat 0 + tx_amount r)%Q cat)
            rows [].

(** [None] stands for the ValueError of a month before year 1. *)
Definition get_trends (db : database) (today : date) (months : Z)
    : option trends :=
  match trend_loop today (transactions db) (range_down months) with
  | None => None
  | Some (ls, incs, exps) =>
      let last_month := if month today - 1 =? 0 then 12 else month today - 1 in
      let last_year := if 1 <? month today then year today else year today - 1 in
      match month_rows last_year last_month (transactions db) with
      | None => None
      | Some rs =>
          Some (mkTrends ls incs exps
                  (breakdown (filter (fun r => tx_is_expense r) rs)))
      end
  end.

(** ** The answer of the model, cleaned: [re.sub(r"(\*\*|\*|-|\_)", "", raw_text)] *)

Fixpoint clean_text (raw : text) : text :=
  match raw with
  | [] => []
  | c :: raw' =>
      if Ascii.eqb c "*" then
        match raw' with
        | c' :: raw'' => if Ascii.eqb c' "*" then clean_text raw''
                         else clean_text raw'
        | [] => []
        end
      else if Ascii.eqb c "-" || Ascii.eqb c "_" then clean_text raw'
      else c :: clean_text raw'
  end.

End Rev155147.

(* ================================================================== *)
(** * Revision 2025-09-09 23:56:36                                      *)
(* ================================================================== *)

Module Rev235636.

(** ** Models *)

Record Transaction := mkTransaction {
  tx_id : Z;
  tx_amount : Q;
  tx_category : text;
  tx_description : text;
  tx_ts : datetime;
  tx_is_expense : bool
}.

Record Budget := mkBudget {
  b_id : Z;
  b_category : text;
  b_monthly_amount : Q
}.

Record Goal := mkGoal {
  g_id : Z;
  g_title : text;
  g_target_amount : Q;
  g_start_date : datetime;
  g_end_date : option datetime
}.

(** [interval] is a free string column here, [next_run] a DateTime. *)
Record Recurring := mkRecurring {
  r_id : Z;
  r_description : text;
  r_amount : Q;
  r_category : text;
  r_interval : text;
  r_next_run : datetime
}.

Record database := mkDatabase {
  transactions : list Transaction;
  budgets : list Budget;
  goals : list Goal;
  recurring : list Recurring
}.

Definition empty_db : database := mkDatabase [] [] [] [].

(** ** [parse_command] *)

Inductive intent :=
| intent_add | intent_add_income | intent_summary | intent_list
| intent_delete | intent_unknown.

Record entry := mkEntry {
  amount : option Q;
  category : text;
  description : text;
  date_ : datetime
}.

Inductive parsed :=
| parsed_add (e : entry)
| parsed_add_income (e : entry)
| parsed_summary
| parsed_list
| parsed_delete
| parsed_unknown.

Definition intent_of (p : parsed) : intent :=
  match p with
  | parsed_add _ => intent_add
  | parsed_add_income _ => intent_add_income
  | parsed_summary => intent_summary
  | parsed_list => intent_list
  | parsed_delete => intent_delete
  | parsed_unknown => intent_unknown
  end.

Definition has (kw : string) (t : text) : bool := contains (txt kw) t.

Definition parse_command (text0 : text) (utcnow : datetime) : parsed :=
  let t := lower text0 in
  if has "spent" t || has "bought" t || has "pay" t then
    parsed_add (mkEntry (option_map float_of (search_amount t))
                        (txt "expense") t utcnow)
  else if has "earned" t || has "salary" t || has "received" t then
    parsed_add_income (mkEntry (option_map float_of (search_amount t))
                               (txt "income") t utcnow)
  else if has "summary" t || has "balance" t then parsed_summary
  else if has "list" t || has "transactions" t then parsed_list
  else if has "delete" t || has "remove" t then parsed_delete
  else parsed_unknown.

(** ** [handle_command] *)

Inductive content :=
| need_amount (desc cat : text)
| added (id : Z) (amt : Q) (cat : text) (is_expense : bool)
| summary_of (income expense balance : Q)
| transactions_of (rows : list Transaction)
| deleted_id (txid : Z)
| not_understood (p : parsed).

Inductive response :=
| JSONResponse (c : content)
| HTTPException (status_code : Z) (detail : string).

Fixpoint insert_desc (x : Transaction) (l : list Transaction) :=
  match l with
  | [] => [x]
  | h :: l' =>
      if datetime_leb (tx_ts h) (tx_ts x) then x :: l
      else h :: insert_desc x l'
  end.

Definition order_by_ts_desc (rows : list Transaction) : list Transaction :=
  fold_right insert_desc [] rows.

Definition set_transactions (db : database) (rows : list Transaction) :=
  mkDatabase rows (budgets db) (goals db) (recurring db).

Definition add_entry (db : database) (is_expense : bool) (e : entry)
    : response * database :=
  match amount e with
  | None => (JSONResponse (need_amount (description e) (category e)), db)
  | Some amt =>
      let tx := mkTransaction (fresh_id (map tx_id (transactions db))) amt
                  (category e) (description e) (date_ e) is_expense in
      (JSONResponse (added (tx_id tx) (tx_amount tx) (tx_category tx)
                           (tx_is_expense tx)),
       set_transactions db (transactions db ++ [tx]))
  end.

Definition find_transaction (txid : Z) (rows : list Transaction) :=
  find (fun r => tx_id r =? txid) rows.

Definition handle_command (db : database) (text0 : text)
    (utcnow : datetime) : response * database :=
  match parse_command text0 utcnow with
  | parsed_add e => add_entry db true e
  | parsed_add_income e => add_entry db false e
  | parsed_summary =>
      let rows := transactions db in
      let total_income :=
        sum (map tx_amount (filter (fun r => negb (tx_is_expense r)) rows)) in
      let total_expense :=
        sum (map tx_amount (filter (fun r => tx_is_expense r) rows)) in
      let balance := (total_income - total_expense)%Q in
      (JSONResponse (summary_of total_income total_expense balance), db)
  | parsed_list =>
      (JSONResponse
         (transactions_of (firstn 50 (order_by_ts_desc (transactions db)))),
       db)
  | parsed_delete =>
      match search_id text0 with
      | None => (HTTPException 400 "no id found to delete", db)
      | Some m =>
          let txid := int_of m in
          match find_transaction txid (transactions db) with
          | None => (HTTPException 404 "transaction not found", db)
          | Some tx =>
              (JSONResponse (deleted_id txid),
               set_transactions db
                 (filter (fun r => negb (tx_id r =? tx_id tx))
                         (transactions db)))
          end
      end
  | parsed_unknown => (JSONResponse (not_understood parsed_unknown), db)
  end.

(** ** [edit_transaction] *)

Record EditRequest := mkEditRequest {
  e_id : Z;
  e_description : text;
  e_amount : Q;
  e_is_expense : bool
}.

Inductive edit_response :=
| edit_ok (updated_id : Z)
| edit_not_found.

Definition edit_transaction (db : database) (payload : EditRequest)
    : edit_response * database :=
  match find_transaction (e_id payload) (transactions db) with
  | None => (edit_not_found, db)
  | Some tx =>
      (edit_ok (tx_id tx),
       set_transactions db
         (map (fun r =>
                 if tx_id r =? tx_id tx then
                   mkTransaction (tx_id r) (e_amount payload) (tx_category r)
                     (e_description payload) (tx_ts r) (e_is_expense payload)
                 else r)
              (transactions db)))
  end.

(** ** [create_budget]: a plain INSERT in this revision *)

Definition create_budget (db : database) (cat : text) (monthly : Q)
    : Budget * database :=
  let budget := mkBudget (fresh_id (map b_id (budgets db))) cat monthly in
  (budget,
   mkDatabase (transactions db) (budgets db ++ [budget]) (goals db)
              (recurring db)).

(** ** [run_due] *)

Definition set_next_run (r : Recurring) (d : datetime) :=
  mkRecurring (r_id r) (r_description r) (r_amount r) (r_category r)
              (r_interval r) d.

Definition pending := Z -> Transaction.

(** The weekly branch calls [timedelta], a name this revision does not
    import: reaching it raises NameError, here [None]. *)
Definition reschedule (r : Recurring) : option Recurring :=
  if text_eqb (r_interval r) (txt "monthly") then
    Some (set_next_run r
            (midnight (mkdate (year (dt_date (r_next_run r)))
                              (month (dt_date (r_next_run r))) 1)))
  else if text_eqb (r_interval r) (txt "weekly") then None
  else Some r.

Fixpoint run_rules (now : datetime) (recs : list Recurring)
    : option (list Recurring * list pending) :=
  match recs with
  | [] => Some ([], [])
  | r :: recs' =>
      if datetime_leb (r_next_run r) now then
        match reschedule r with
        | None => None
        | Some r' =>
            match run_rules now recs' with
            | None => None
            | Some (rs, txs) =>
                Some (r' :: rs,
                      (fun id => mkTransaction id (r_amount r) (r_category r)
                                   (r_description r) now true) :: txs)
            end
        end
      else
        match run_rules now recs' with
        | None => None
        | Some (rs, txs) => Some (r :: rs, txs)
        end
  end.

Definition insert_all (rows : list Transaction) (new : list pending) :=
  fold_left (fun acc mk => acc ++ [mk (fresh_id (map tx_id acc))]) new rows.

(** [None] is the uncaught exception: nothing is committed. *)
Definition run_due (db : database) (now : datetime)
    : option (list Transaction) * database :=
  match run_rules now (recurring db) with
  | None => (None, db)
  | Some (rs, txs) =>
      let rows := insert_all (transactions db) txs in
      (Some (skipn (List.length (transactions db)) rows),
       mkDatabase rows (budgets db) (goals db) rs)
  end.

(** ** [get_trends] *)

Record trends := mkTrends {
  labels : list (Z * Z);
  income_by_month : list Q;
  expense_by_month : list Q;
  category_breakdown : dict
}.

(** [r.ts.strftime("%Y-%m") == f"{year}-{month:02d}"] *)
Definition in_label (label : Z * Z) (r : Transaction) : bool :=
  (year (dt_date (tx_ts r)) =? fst label) &&
  (month (dt_date (tx_ts r)) =? snd label).

(** The label of the month [i] months back, as the loop computes it. *)
Definition label_of (now : datetime) (i : Z) : Z * Z :=
  let month' := (month (dt_date now) - i - 1) mod 12 + 1 in
  let year' := if 0 <? month (dt_date now) - i then year (dt_date now)
               else year (dt_date now) - 1 in
  (year', month').

(** [cat_breakdown[r.category] += r.amount] on a [defaultdict(float)]. *)
Definition breakdown (rows : list Transaction) : dict :=
  fold_left (fun cat r =>
               dict_set (tx_category r)
                        (dict_get (tx_category r) cat 0 + tx_amount r)%Q cat)
            rows [].

Definition get_trends (db : database) (now : datetime) : trends :=
  let rows := transactions db in
  let ls := map (label_of now) (range_down 6) in
  let inc := map (fun l => sum (map tx_amount
                     (filter (fun r => negb (tx_is_expense r) && in_label l r)
                             rows))) ls in
  let exp := map (fun l => sum (map tx_amount
                     (filter (fun r => tx_is_expense r && in_label l r)
                             rows))) ls in
  let last_month := last ls (0, 0) in
  mkTrends ls inc exp
    (breakdown (filter (fun r => tx_is_expense r && in_label last_month r) rows)).

End Rev235636.

(* ================================================================== *)
(** * The vocabulary of the specification                               *)
(* ================================================================== *)

Module Spec.

(** [kw] occurs in [t]. *)
Definition Contains (kw t : text) : Prop :=
  exists pre post, t = pre ++ kw ++ post.

Definition AnyOf (kws : list string) (t : text) : Prop :=
  exists kw, In kw kws /\ Contains (txt kw) t.

Definition Digits (t : text) : Prop := Forall (fun c => is_digit c = true) t.

(** [t] is a numeral of at most six digits, and [n] is its value. *)
Definition ShortNumeral (t : text) (n : Z) : Prop :=
  t <> [] /\ Digits t /\ (List.length t <= 6)%nat /\ n = int_of t.

(** The keyword sets of the five keyword rules of the classifier. *)
Record keywords := mkKeywords {
  expense_kws : list string;
  income_kws : list string;
  summary_kws : list string;
  list_kws : list string;
  delete_kws : list string
}.

(** The ordered rules of the intent classifier over the keyword sets [K]:
    every rule applies to the lowercased text and only when no earlier
    rule does. *)
Inductive classified (K : keywords) (t : text) : Rev155147.intent -> Prop :=
| rule_expense :
    AnyOf (expense_kws K) (lower t) ->
    classified K t Rev155147.intent_add
| rule_income :
    ~ AnyOf (expense_kws K) (lower t) ->
    AnyOf (income_kws K) (lower t) ->
    classified K t Rev155147.intent_add_income
| rule_summary :
    ~ AnyOf (expense_kws K) (lower t) ->
    ~ AnyOf (income_kws K) (lower t) ->
    AnyOf (summary_kws K) (lower t) ->
    classified K t Rev155147.intent_summary
| rule_list :
    ~ AnyOf (expense_kws K) (lower t) ->
    ~ AnyOf (income_kws K) (lower t) ->
    ~ AnyOf (summary_kws K) (lower t) ->
    AnyOf (list_kws K) (lower t) ->
    classified K t Rev155147.intent_list
| rule_delete :
    ~ AnyOf (expense_kws K) (lower t) ->
    ~ AnyOf (income_kws K) (lower t) ->
    ~ AnyOf (summary_kws K) (lower t) ->
    ~ AnyOf (list_kws K) (lower t) ->
    AnyOf (delete_kws K) (lower t) ->
    classified K t Rev155147.intent_delete
| rule_get_by_id n :
    ~ AnyOf (expense_kws K) (lower t) ->
    ~ AnyOf (income_kws K) (lower t) ->
    ~ AnyOf (summary_kws K) (lower t) ->
    ~ AnyOf (list_kws K) (lower t) ->
    ~ AnyOf (delete_kws K) (lower t) ->
    ShortNumeral (strip (lower t)) n ->
    classified K t (Rev155147.intent_get_tx n)
| rule_unknown :
    ~ AnyOf (expense_kws K) (lower t) ->
    ~ AnyOf (income_kws K) (lower t) ->
    ~ AnyOf (summary_kws K) (lower t) ->
    ~ AnyOf (list_kws K) (lower t) ->
    ~ AnyOf (delete_kws K) (lower t) ->
    (forall n, ~ ShortNumeral (strip (lower t)) n) ->
    classified K t Rev155147.intent_unknown.

(** The keyword sets as the specification lists them. *)
Definition stated_keywords : keywords :=
  mkKeywords ["spent"; "bought"; "pay"; "paid"; "purchase"]%string
             ["earned"; "salary"; "received"; "income"; "got paid"]%string
             ["summary"; "balance"]%string
             ["list"; "transactions"; "show"]%string
             ["delete"; "remove"]%string.

(** The keyword sets [Rev155147.parse_command] tests. *)
Definition parser_keywords : keywords :=
  mkKeywords ["spent"; "bought"; "pay"; "purchase"]%string
             ["earned"; "salary"; "received"]%string
             ["summary"; "balance"]%string
             ["list"; "transactions"]%string
             ["delete"; "remove"]%string.

(** The boolean test behind [AnyOf]. *)
Definition any_in (kws : list string) (t : text) : bool :=
  existsb (fun kw => contains (txt kw) t) kws.


(** [m] is a whole match of the amount pattern [\d+(\.\d{1,2})?]. *)
Definition AmountNumeral (m : text) : Prop :=
  exists ds fs,
    ds <> [] /\ Digits ds /\ Digits fs /\ (List.length fs <= 2)%nat /\
    m = ds ++ match fs with [] => [] | _ => "."%char :: fs end.

(** Some substring of [t] matches the amount pattern. *)
Definition HasAmount (t : text) : Prop :=
  exists pre m post, t = pre ++ m ++ post /\ AmountNumeral m.








(** The budget rows of one category. *)
Definition budgets_of (cat : text) (bs : list Rev155147.Budget)
    : list Rev155147.Budget :=
  filter (fun b => text_eqb (Rev155147.b_category b) cat) bs.







(** A month between 1 and 12 and a day of that month, in any year. *)
Definition well_formed (d : date) : Prop :=
  1 <= month d <= 12 /\ 1 <= day d <= monthrange (year d) (month d).

(** The number of days of year [y]. *)
Definition year_length (y : Z) : Z := if isleap y then 366 else 365.

(** Months counted from year 0. *)
Definition month_index (d : date) : Z := 12 * year d + (month d - 1).

(** [d'] is [d] moved to the following calendar month, on the same day of
    the month or on the last day of that month when it is shorter. *)
Definition OneMonthLater (d d' : date) : Prop :=
  valid_date d' = true /\
  month_index d' = month_index d + 1 /\
  day d' = Z.min (day d) (monthrange (year d') (month d')).

(** [d'] is the date seven days after [d]. *)
Definition SevenDaysLater (d d' : date) : Prop :=
  valid_date d' = true /\ toordinal d' = toordinal d + 7.

(** [r'] is the rule [r] with, possibly, another [next_run]. *)
Definition same_rule (r r' : Rev155147.RecurringTransaction) : Prop :=
  Rev155147.r_id r' = Rev155147.r_id r /\
  Rev155147.r_description r' = Rev155147.r_description r /\
  Rev155147.r_amount r' = Rev155147.r_amount r /\
  Rev155147.r_category r' = Rev155147.r_category r /\
  Rev155147.r_is_expense r' = Rev155147.r_is_expense r /\
  Rev155147.r_interval r' = Rev155147.r_interval r.

(** [d'] is [d] moved by one interval. *)
Definition Later (i : Rev155147.RecurrenceIntervalEnum) (d d' : date) : Prop :=
  match i with
  | Rev155147.monthly => OneMonthLater d d'
  | Rev155147.weekly => SevenDaysLater d d'
  end.

(** What a pass on day [today] makes of the rule [r]: a due rule moves by
    one interval, any other rule stays as it is. *)
Definition Rescheduled (today : date)
    (r r' : Rev155147.RecurringTransaction) : Prop :=
  same_rule r r' /\
  match Rev155147.r_next_run r with
  | Some d =>
      if date_leb d today
      then exists d', Rev155147.r_next_run r' = Some d' /\
                      Later (Rev155147.r_interval r) d d'
      else Rev155147.r_next_run r' = Some d
  | None => Rev155147.r_next_run r' = None
  end.

(** [tx] is the transaction a pass creates for the due rule [r]: dated at
    the rule's [next_run] as it is before the pass. *)
Definition Materialized (r : Rev155147.RecurringTransaction)
    (tx : Rev155147.Transaction) : Prop :=
  exists d,
    Rev155147.r_next_run r = Some d /\
    Rev155147.tx_ts tx = midnight d /\
    Rev155147.tx_amount tx = Rev155147.r_amount r /\
    Rev155147.tx_category tx = Rev155147.r_category r /\
    Rev155147.tx_description tx = txt "[recurring] " ++ Rev155147.r_description r /\
    Rev155147.tx_is_expense tx = Rev155147.r_is_expense r /\
    Rev155147.tx_recurring_id tx = Some (Rev155147.r_id r).

(** Every [next_run] of the table is a date of the calendar. *)
Definition ValidRules (rules : list Rev155147.RecurringTransaction) : Prop :=
  forall r d, In r rules -> Rev155147.r_next_run r = Some d ->
              valid_date d = true.

(** The least number of days an interval moves a date by. *)
Definition interval_days (i : Rev155147.RecurrenceIntervalEnum) : Z :=
  match i with
  | Rev155147.monthly => 28
  | Rev155147.weekly => 7
  end.

(** [total_amount] on the rows of the later revision. *)
Fixpoint total_amount_235636 (flag : bool)
    (rows : list Rev235636.Transaction) : Q :=
  match rows with
  | [] => 0%Q
  | r :: rows' =>
      ((if Bool.eqb (Rev235636.tx_is_expense r) flag
        then Rev235636.tx_amount r else 0) + total_amount_235636 flag rows')%Q
  end.

(** [ts] lies in the calendar month of [now] and not after [now]. *)
Definition in_month_to_date (now ts : datetime) : bool :=
  (year (dt_date ts) =? year (dt_date now)) &&
  (month (dt_date ts) =? month (dt_date now)) &&
  datetime_leb ts now.

(** A timestamp with a day of at least 1 and a time of day of at least 0. *)
Definition proper_timestamp (ts : datetime) : Prop :=
  1 <= day (dt_date ts) /\ 0 <= dt_time ts.

(** [s] is [t] without its leading and trailing whitespace. *)
Definition Trimmed (t s : text) : Prop :=
  exists ws1 ws2,
    t = ws1 ++ s ++ ws2 /\
    Forall (fun c => is_space c = true) ws1 /\
    Forall (fun c => is_space c = true) ws2 /\
    (forall c, hd_error s = Some c -> is_space c = false) /\
    (forall c, hd_error (rev s) = Some c -> is_space c = false).

(** The order of timestamps, spelled out. *)
Definition datetime_le (a b : datetime) : Prop :=
  let da := dt_date a in
  let db := dt_date b in
  year da < year db \/
  (year da = year db /\
   (month da < month db \/
    (month da = month db /\
     (day da < day db \/ (day da = day db /\ dt_time a <= dt_time b))))).

(** [a] is not older than [b]. *)
Definition newer_or_equal (a b : Rev155147.Transaction) : Prop :=
  datetime_le (Rev155147.tx_ts b) (Rev155147.tx_ts a).

(** The year and the month of the month counted [idx] from year 0. *)
Definition label_at (idx : Z) : Z * Z := (idx / 12, idx mod 12 + 1).




(** The characters of Markdown emphasis and lists the answer is cleaned
    of. *)
Definition is_markup (c : ascii) : bool :=
  Ascii.eqb c "*" || Ascii.eqb c "-" || Ascii.eqb c "_".

End Spec.

Import Spec.

(* ================================================================== *)
(** * Sample data                                                       *)
(* ================================================================== *)

Module Samples.

Import Rev155147.

Definition sample_now : datetime := mkdatetime (mkdate 2025 9 9) 57107000000.

(** A ledger with two expenses and one income, a food budget of 100 and
    two recurring rules. *)
Definition sample_db : database :=
  mkDatabase
    [ mkTransaction 1 (85 # 1) (txt "food") (txt "spent 85 on food")
        (mkdatetime (mkdate 2025 9 2) 0) true None;
      mkTransaction 2 (2000 # 1) (txt "income") (txt "received 2000")
        (mkdatetime (mkdate 2025 9 1) 0) false None;
      mkTransaction 3 (5 # 2) (txt "general") (txt "paying 2.50")
        (mkdatetime (mkdate 2025 8 30) 0) true None ]
    [ mkBudget 1 (txt "food") (100 # 1) (txt "USD") ]
    []
    [ mkRecurring 1 (txt "rent") (700 # 1) (txt "rent") true monthly
        (Some (mkdate 2025 1 31));
      mkRecurring 2 (txt "gym") (10 # 1) (txt "sport") true weekly
        (Some (mkdate 2025 9 5));
      mkRecurring 3 (txt "pension") (50 # 1) (txt "income") false monthly
        (Some (mkdate 2025 12 15)) ].





Definition sample_today : date := mkdate 2025 9 9.

(** A ledger whose rules are at most a few days behind 2025-09-09. *)
Definition sample_db_current : database :=
  mkDatabase []
    []
    []
    [ mkRecurring 1 (txt "rent") (700 # 1) (txt "rent") true monthly
        (Some (mkdate 2025 9 1));
      mkRecurring 2 (txt "gym") (10 # 1) (txt "sport") true weekly
        (Some (mkdate 2025 9 5)) ].

(** A ledger whose second rule cannot move by a week within the calendar. *)
Definition sample_db_last_days : database :=
  mkDatabase []
    []
    []
    [ mkRecurring 1 (txt "rent") (700 # 1) (txt "rent") true monthly
        (Some (mkdate 9999 11 30));
      mkRecurring 2 (txt "gym") (10 # 1) (txt "sport") true weekly
        (Some (mkdate 9999 12 26)) ].

(** Two rules of the later revision: one due on 2025-09-09, one not. *)
Definition sample_db_235636_rules : Rev235636.database :=
  Rev235636.mkDatabase [] [] []
    [ Rev235636.mkRecurring 1 (txt "rent") (700 # 1) (txt "rent")
        (txt "monthly") (midnight (mkdate 2025 1 31));
      Rev235636.mkRecurring 2 (txt "gym") (10 # 1) (txt "sport")
        (txt "weekly") (midnight (mkdate 2025 12 5)) ].

End Samples.

Import Samples.

(* ================================================================== *)
(** * Theorems                                                          *)
(* ================================================================== *)

Unset Implicit Arguments.

(** ** The patterns on sample texts *)

Example search_amount_samples :
  map (fun s => option_map string_of_list_ascii (search_amount (txt s)))
      ["a 12.345 6"; "a 12. 6"; "x.5"; "none"]%string
  = [Some "12.34"; Some "12"; Some "5"; None]%string.
Proof. reflexivity. Qed.

Example search_category_samples :
  map (fun s => option_map string_of_list_ascii
                  (search_category [txt "on"; txt "for"] (txt s)))
      ["spent 5 on food"; "python 5 on-line on food"; "spent 5 format x on y";
       "spent on  "; "spent on!"]%string
  = [Some "food"; Some "5 on-line on food"; Some "y"; Some " "; None]%string.
Proof. reflexivity. Qed.

Example search_id_samples :
  map (fun s => option_map string_of_list_ascii (search_id (txt s)))
      ["delete 12ab 7"; "delete 1234567 5"; "delete 12.50"; "delete _5 6";
       "remove x5"; "del 007"]%string
  = [Some "7"; Some "5"; Some "12"; Some "6"; None; Some "007"]%string.
Proof. reflexivity. Qed.

Example float_of_samples :
  map (fun s => float_of (txt s)) ["42.50"; "12"; "0"; "007.05"]%string
  = [4250 # 100; 12 # 1; 0 # 1; 705 # 100].
Proof. reflexivity. Qed.

(** The scenarios of the specification on the sample ledger. *)
Example scenario_groceries :
  fst (Rev155147.handle_command Rev155147.empty_db
         (Some (txt "spent 42.50 on groceries")) sample_now sample_now)
  = Rev155147.JSONResponse
      (Rev155147.added 1 (4250 # 100) (txt "groceries") true None).
Proof. reflexivity. Qed.

Example scenario_bare_id :
  Rev155147.parse_command (txt "99") sample_now = Rev155147.parsed_get_tx 99 /\
  fst (Rev155147.handle_command sample_db (Some (txt "99")) sample_now sample_now)
  = Rev155147.HTTPException 404 "transaction not found".
Proof. split; reflexivity. Qed.

(** ** Text *)

Lemma starts_with_app (p t : text) :
  starts_with p t = true <-> exists post, t = p ++ post.
Proof.
  revert t; induction p as [|a p IH]; intros t; simpl.
  - split; [intros _; now exists t | reflexivity].
  - destruct t as [|b t].
    + split; [discriminate | intros [post H]; discriminate].
    + rewrite andb_true_iff, Ascii.eqb_eq, IH. split.
      * intros [-> [post ->]]. now exists post.
      * intros [post H]. injection H as -> ->. split; [reflexivity | now exists post].
Qed.

Lemma contains_Contains (kw t : text) :
  contains kw t = true <-> Contains kw t.
Proof.
  unfold Contains. induction t as [|c t IH].
  - simpl. rewrite orb_false_r, starts_with_app. split.
    + intros [post H]. exists [], post. exact H.
    + intros (pre & post & H). destruct pre as [|x pre]; [|discriminate].
      now exists post.
  - simpl. rewrite orb_true_iff, starts_with_app, IH. split.
    + intros [[post H] | (pre & post & H)].
      * exists [], post. exact H.
      * exists (c :: pre), post. simpl. now rewrite H.
    + intros (pre & post & H). destruct pre as [|x pre].
      * left. now exists post.
      * right. injection H as _ H. now exists pre, post.
Qed.

Lemma AnyOf_any_in (kws : list string) (t : text) :
  AnyOf kws t <-> any_in kws t = true.
Proof.
  unfold AnyOf, any_in. rewrite existsb_exists. split.
  - intros (kw & Hin & H). exists kw. now rewrite contains_Contains.
  - intros (kw & Hin & H). exists kw. now rewrite <- contains_Contains.
Qed.

Lemma isdigit_Digits (t : text) :
  isdigit t = true <-> t <> [] /\ Digits t.
Proof.
  unfold isdigit, Digits. destruct t as [|c t].
  - split; [discriminate | intros [H _]; now elim H].
  - rewrite forallb_forall, Forall_forall. split.
    + intros H. split; [discriminate | exact H].
    + intros [_ H]. exact H.
Qed.

Lemma ShortNumeral_test (t : text) (n : Z) :
  ShortNumeral t n <->
  isdigit t && Nat.ltb (List.length t) 7 = true /\ n = int_of t.
Proof.
  unfold ShortNumeral.
  rewrite andb_true_iff, isdigit_Digits, Nat.ltb_lt. split.
  - intros (H1 & H2 & H3 & H4). repeat split; auto. lia.
  - intros (((H1 & H2) & H3) & H4). repeat split; auto. lia.
Qed.

Lemma span_parts (p : ascii -> bool) (t : text) :
  t = fst (span p t) ++ snd (span p t) /\
  Forall (fun c => p c = true) (fst (span p t)) /\
  (forall c, hd_error (snd (span p t)) = Some c -> p c = false).
Proof.
  induction t as [|c t (IH1 & IH2 & IH3)]; simpl.
  - repeat split; [constructor | discriminate].
  - destruct (p c) eqn:E.
    + destruct (span p t) as [a b]. simpl in *. repeat split.
      * now rewrite <- IH1.
      * now constructor.
      * exact IH3.
    + simpl. repeat split; [constructor|]. intros x Hx. now injection Hx as <-.
Qed.

(** [strip] removes the whitespace at both ends and nothing else. *)
Lemma strip_Trimmed (t : text) : Trimmed t (strip t).
Proof.
  unfold strip, rstrip, lstrip.
  destruct (span_parts is_space t) as (H1 & H2 & H3).
  set (l := snd (span is_space t)) in *.
  destruct (span_parts is_space (rev l)) as (R1 & R2 & R3).
  set (r := snd (span is_space (rev l))) in *.
  exists (fst (span is_space t)), (rev (fst (span is_space (rev l)))).
  assert (Hl : l = rev r ++ rev (fst (span is_space (rev l)))).
  { rewrite <- rev_app_distr, <- R1. symmetry. apply rev_involutive. }
  split; [|split; [|split; [|split]]].
  - rewrite <- Hl. exact H1.
  - exact H2.
  - apply Forall_rev. exact R2.
  - intros c Hc. apply H3. rewrite Hl.
    destruct (rev r) as [|x xs]; [discriminate|]. exact Hc.
  - rewrite rev_involutive. exact R3.
Qed.

(** ** The intent classifier *)

Section Classifier.

Import Rev155147.

Lemma intent_of_parse_command (t : text) (now : datetime) :
  intent_of (parse_command t now) =
  let l := lower t in
  if any_in (expense_kws parser_keywords) l then intent_add
  else if any_in (income_kws parser_keywords) l then intent_add_income
  else if any_in (summary_kws parser_keywords) l then intent_summary
  else if any_in (list_kws parser_keywords) l then intent_list
  else if any_in (delete_kws parser_keywords) l then intent_delete
  else if isdigit (strip l) && Nat.ltb (List.length (strip l)) 7
       then intent_get_tx (int_of (strip l))
  else intent_unknown.
Proof.
  unfold parse_command, has, any_in. cbn [parser_keywords expense_kws income_kws
    summary_kws list_kws delete_kws existsb].
  set (l := lower t). cbv zeta.
  rewrite !orb_false_r, <- !orb_assoc.
  repeat match goal with
         | |- context [if ?b then _ else _] => destruct b; cbn [intent_of]; try reflexivity
         end.
Qed.

End Classifier.

Section Classified.

Import Rev155147.

Variable K : keywords.

(** The decision chain the rules [classified K] describe. *)
Lemma classified_chain (t : text) (i : intent) :
  classified K t i <->
  i = (let l := lower t in
       if any_in (expense_kws K) l then intent_add
       else if any_in (income_kws K) l then intent_add_income
       else if any_in (summary_kws K) l then intent_summary
       else if any_in (list_kws K) l then intent_list
       else if any_in (delete_kws K) l then intent_delete
       else if isdigit (strip l) && Nat.ltb (List.length (strip l)) 7
            then intent_get_tx (int_of (strip l))
       else intent_unknown).
Proof.
  cbv zeta. split.
  - intros H; destruct H;
      repeat match goal with
             | H : AnyOf _ _ |- _ => apply AnyOf_any_in in H; rewrite H
             | H : ~ AnyOf _ _ |- _ =>
                 rewrite AnyOf_any_in in H; apply not_true_is_false in H; rewrite H
             end; try reflexivity.
    + match goal with H : ShortNumeral _ _ |- _ =>
        apply ShortNumeral_test in H; destruct H as [-> ->] end.
      reflexivity.
    + destruct (isdigit (strip (lower t)) &&
                Nat.ltb (List.length (strip (lower t))) 7) eqn:E; [|reflexivity].
      exfalso. match goal with H : forall n, ~ ShortNumeral _ n |- _ =>
        apply (H (int_of (strip (lower t)))) end.
      apply ShortNumeral_test. now split.
  - intros ->.
    destruct (any_in (expense_kws K) (lower t)) eqn:E1.
    { apply rule_expense. now apply AnyOf_any_in. }
    assert (N1 : ~ AnyOf (expense_kws K) (lower t))
      by (rewrite AnyOf_any_in, E1; discriminate).
    destruct (any_in (income_kws K) (lower t)) eqn:E2.
    { apply rule_income; [assumption | now apply AnyOf_any_in]. }
    assert (N2 : ~ AnyOf (income_kws K) (lower t))
      by (rewrite AnyOf_any_in, E2; discriminate).
    destruct (any_in (summary_kws K) (lower t)) eqn:E3.
    { apply rule_summary; try assumption. now apply AnyOf_any_in. }
    assert (N3 : ~ AnyOf (summary_kws K) (lower t))
      by (rewrite AnyOf_any_in, E3; discriminate).
    destruct (any_in (list_kws K) (lower t)) eqn:E4.
    { apply rule_list; try assumption. now apply AnyOf_any_in. }
    assert (N4 : ~ AnyOf (list_kws K) (lower t))
      by (rewrite AnyOf_any_in, E4; discriminate).
    destruct (any_in (delete_kws K) (lower t)) eqn:E5.
    { apply rule_delete; try assumption. now apply AnyOf_any_in. }
    assert (N5 : ~ AnyOf (delete_kws K) (lower t))
      by (rewrite AnyOf_any_in, E5; discriminate).
    destruct (isdigit (strip (lower t)) &&
              Nat.ltb (List.length (strip (lower t))) 7) eqn:E6.
    + apply rule_get_by_id; try assumption. apply ShortNumeral_test. now split.
    + apply rule_unknown; try assumption. intros n Hn.
      apply ShortNumeral_test in Hn. destruct Hn as [Hn _]. congruence.
Qed.

End Classified.


(** The classifier never fails: the rules give every text one intent. *)
Corollary classified_exactly_one (t : text) :
  exists i, classified parser_keywords t i /\
            forall j, classified parser_keywords t j -> j = i.
Proof.
  exists (Rev155147.intent_of (Rev155147.parse_command t sample_now)). split.
  - apply classified_chain. apply intent_of_parse_command.
  - intros j Hj. apply classified_chain in Hj.
    rewrite intent_of_parse_command. exact Hj.
Qed.


(** The texts of the keyword sets that separate the stated rules from the
    parser: each is classified by the stated rules and unknown to the
    parser. *)
Lemma stated_keywords_divergences :
  Forall (fun '(s, i) =>
            classified stated_keywords (txt s) i /\
            forall now, Rev155147.intent_of (Rev155147.parse_command (txt s) now)
                        = Rev155147.intent_unknown)
    [("paid 5", Rev155147.intent_add);
     ("got paid 5", Rev155147.intent_add);
     ("income 5", Rev155147.intent_add_income);
     ("show", Rev155147.intent_list)]%string.
Proof.
  repeat (apply Forall_cons; [split; [apply classified_chain; reflexivity
                                      | intros now; reflexivity] |]).
  apply Forall_nil.
Qed.

(** ** Sums *)

Lemma fold_left_Qplus_acc (l : list Q) (a : Q) :
  (fold_left Qplus l a == a + fold_left Qplus l 0)%Q.
Proof.
  revert a; induction l as [|x l IH]; intros a; simpl.
  - ring.
  - rewrite (IH (a + x)%Q), (IH (0 + x)%Q). ring.
Qed.

Lemma sum_cons (x : Q) (l : list Q) : (sum (x :: l) == x + sum l)%Q.
Proof.
  unfold sum; simpl. rewrite fold_left_Qplus_acc. ring.
Qed.


(** ** The summary *)




(** ** Read-only intents *)

(** C10: when the text is classified as summary, list, get_tx or unknown,
    the command leaves the store as it was: the transactions, budgets,
    goals and recurring rules after the call are those before it. *)
Theorem C10_read_only_intents :
  forall (db : Rev155147.database) (t : text) (utcnow now : datetime),
    (Rev155147.intent_of (Rev155147.parse_command t utcnow) = Rev155147.intent_summary \/
     Rev155147.intent_of (Rev155147.parse_command t utcnow) = Rev155147.intent_list \/
     (exists n, Rev155147.intent_of (Rev155147.parse_command t utcnow)
                = Rev155147.intent_get_tx n) \/
     Rev155147.intent_of (Rev155147.parse_command t utcnow) = Rev155147.intent_unknown) ->
    snd (Rev155147.handle_command db (Some t) utcnow now) = db.
Proof.
  intros db t utcnow now H.
  unfold Rev155147.handle_command.
  destruct t as [|c t]; [reflexivity|].
  destruct (Rev155147.parse_command (c :: t) utcnow) eqn:E; cbn [Rev155147.intent_of] in H;
    try reflexivity;
    try (exfalso; destruct H as [H|[H|[[n H]|H]]]; discriminate H).
  destruct (Rev155147.find_transaction txid (Rev155147.transactions db)); reflexivity.
Qed.

Lemma C10_read_only_intents_witness :
  (Rev155147.intent_of (Rev155147.parse_command (txt "2") sample_now)
     = Rev155147.intent_summary \/
   Rev155147.intent_of (Rev155147.parse_command (txt "2") sample_now)
     = Rev155147.intent_list \/
   (exists n, Rev155147.intent_of (Rev155147.parse_command (txt "2") sample_now)
              = Rev155147.intent_get_tx n) \/
   Rev155147.intent_of (Rev155147.parse_command (txt "2") sample_now)
     = Rev155147.intent_unknown) /\
  snd (Rev155147.handle_command sample_db (Some (txt "2")) sample_now sample_now)
    = sample_db.
Proof.
  assert (H : exists n, Rev155147.intent_of
                          (Rev155147.parse_command (txt "2") sample_now)
                        = Rev155147.intent_get_tx n)
    by (exists 2; reflexivity).
  split.
  - right; right; left. exact H.
  - apply (C10_read_only_intents sample_db (txt "2") sample_now sample_now).
    right; right; left. exact H.
Defined.

(** ** The amount pattern *)

Lemma is_digit_lower_char (c : ascii) : is_digit (lower_char c) = is_digit c.
Proof.
  destruct c as [[] [] [] [] [] [] [] []]; reflexivity.
Qed.

Lemma search_amount_None (t : text) :
  search_amount t = None <-> forall c, In c t -> is_digit c = false.
Proof.
  induction t as [|c t IH]; simpl.
  - split; [intros _ c [] | reflexivity].
  - destruct (is_digit c) eqn:E.
    + destruct (span is_digit t) as [ds rest]. split; [discriminate|].
      intros H. specialize (H c (or_introl eq_refl)). congruence.
    + rewrite IH. split.
      * intros H x [<-|Hx]; auto.
      * intros H x Hx. apply H. now right.
Qed.

Lemma HasAmount_digit (t : text) :
  HasAmount t <-> exists c, In c t /\ is_digit c = true.
Proof.
  split.
  - intros (pre & m & post & -> & ds & fs & Hne & Hds & _ & _ & ->).
    destruct ds as [|d ds]; [now elim Hne|].
    exists d. split.
    + apply in_or_app; right. left. reflexivity.
    + now inversion Hds.
  - intros (c & Hin & Hc). apply in_split in Hin. destruct Hin as (pre & post & ->).
    exists pre, [c], post. split; [reflexivity|].
    exists [c], []. repeat split; try discriminate; auto.
    + constructor; [exact Hc | constructor].
    + constructor.
Qed.

Lemma search_amount_lower_None (t : text) :
  search_amount (lower t) = None <-> ~ HasAmount t.
Proof.
  rewrite search_amount_None, HasAmount_digit. unfold lower. split.
  - intros H (c & Hin & Hc).
    specialize (H (lower_char c) (in_map _ _ _ Hin)).
    rewrite is_digit_lower_char in H. congruence.
  - intros H c Hin. apply in_map_iff in Hin. destruct Hin as (x & <- & Hx).
    rewrite is_digit_lower_char. destruct (is_digit x) eqn:E; [|reflexivity].
    elim H. now exists x.
Qed.

(** ** The add path without an amount *)






Example need_amount_sample :
  fst (Rev155147.handle_command sample_db (Some (txt "Bought coffee for the team"))
         sample_now sample_now)
  = Rev155147.JSONResponse
      (Rev155147.need_amount (txt "bought coffee for the team") (txt "the team")).
Proof. reflexivity. Qed.

(** ** The id pattern of delete *)















(** ** Delete *)









(** ** Budget upsert *)

Lemma text_eqb_eq (a b : text) : text_eqb a b = true <-> a = b.
Proof.
  revert b; induction a as [|x a IH]; intros [|y b]; simpl;
    try (split; [discriminate | discriminate]); try tauto.
  rewrite andb_true_iff, Ascii.eqb_eq, IH. split.
  - intros [-> ->]; reflexivity.
  - intros H; injection H as -> ->; auto.
Qed.





Lemma budgets_of_map (cat : text) (f : Rev155147.Budget -> Rev155147.Budget)
    (bs : list Rev155147.Budget) :
  (forall x, Rev155147.b_category (f x) = Rev155147.b_category x) ->
  budgets_of cat (map f bs) = map f (budgets_of cat bs).
Proof.
  intros Hf. unfold budgets_of. induction bs as [|x l IH]; simpl; [reflexivity|].
  rewrite Hf. destruct (text_eqb (Rev155147.b_category x) cat); simpl;
    now rewrite IH.
Qed.

Section Upsert.

Import Rev155147.


End Upsert.




Example upsert_created_then_updated :
  let r1 := Rev155147.create_budget sample_db
              (Rev155147.mkBudgetIn (txt "rent") (700 # 1) (txt "USD")) in
  let r2 := Rev155147.create_budget (snd r1)
              (Rev155147.mkBudgetIn (txt "rent") (750 # 1) (txt "EUR")) in
  fst r1 = (Rev155147.created, 2) /\ fst r2 = (Rev155147.updated, 2) /\
  Rev155147.budgets (snd r2)
  = [Rev155147.mkBudget 1 (txt "food") (100 # 1) (txt "USD");
     Rev155147.mkBudget 2 (txt "rent") (750 # 1) (txt "EUR")].
Proof. repeat split. Qed.

(** ** Budget warnings *)




Section Warning.

Import Rev155147.



End Warning.




(** ** Amounts *)








Lemma edit_transaction_rows (db : Rev235636.database)
    (p : Rev235636.EditRequest) :
  (forall r, In r (Rev235636.transactions db) ->
             Rev235636.tx_id r <> Rev235636.e_id p) /\
  Rev235636.edit_transaction db p = (Rev235636.edit_not_found, db)
  \/
  (exists r, In r (Rev235636.transactions db) /\
             Rev235636.tx_id r = Rev235636.e_id p) /\
  Rev235636.edit_transaction db p
  = (Rev235636.edit_ok (Rev235636.e_id p),
     Rev235636.set_transactions db
       (map (fun r =>
               if Rev235636.tx_id r =? Rev235636.e_id p then
                 Rev235636.mkTransaction (Rev235636.tx_id r) (Rev235636.e_amount p)
                   (Rev235636.tx_category r) (Rev235636.e_description p)
                   (Rev235636.tx_ts r) (Rev235636.e_is_expense p)
               else r)
            (Rev235636.transactions db))).
Proof.
  unfold Rev235636.edit_transaction, Rev235636.find_transaction.
  destruct (find _ (Rev235636.transactions db)) as [tx|] eqn:E.
  - right. apply find_some in E. destruct E as [Hin Hid].
    apply Z.eqb_eq in Hid. split; [now exists tx|]. now rewrite Hid.
  - left. split; [|reflexivity]. intros r Hin Hid.
    apply (find_none _ _ E) in Hin. apply Z.eqb_neq in Hin. contradiction.
Qed.




(** ** Calendar *)

Lemma valid_date_well_formed (d : date) :
  valid_date d = true <-> well_formed d /\ MINYEAR <= year d <= MAXYEAR.
Proof.
  unfold valid_date, well_formed.
  rewrite !andb_true_iff, !Z.leb_le. tauto.
Qed.

Lemma month_cases (m : Z) :
  1 <= m <= 12 ->
  m = 1 \/ m = 2 \/ m = 3 \/ m = 4 \/ m = 5 \/ m = 6 \/
  m = 7 \/ m = 8 \/ m = 9 \/ m = 10 \/ m = 11 \/ m = 12.
Proof. lia. Qed.

Ltac each_month m H :=
  destruct (month_cases m H) as
    [->|[->|[->|[->|[->|[->|[->|[->|[->|[->|[->| ->]]]]]]]]]]].

Ltac month_tables :=
  cbv [days_before_month monthrange mdays Z.eqb Z.ltb Z.compare
       Pos.eqb Pos.compare Pos.compare_cont andb orb negb].

Lemma monthrange_bounds (y m : Z) :
  1 <= m <= 12 -> 28 <= monthrange y m <= 31.
Proof.
  intros H. each_month m H; month_tables; try lia; destruct (isleap y); lia.
Qed.

Lemma days_before_month_succ (y m : Z) :
  1 <= m < 12 ->
  days_before_month y (m + 1) = days_before_month y m + monthrange y m.
Proof.
  intros H. assert (H' : 1 <= m <= 12) by lia.
  each_month m H'; try lia;
    match goal with
    | |- context [days_before_month _ (?a + 1)] =>
        let v := eval compute in (a + 1) in change (a + 1) with v
    end;
    month_tables; destruct (isleap y); lia.
Qed.

Lemma days_before_month_december (y : Z) :
  days_before_month y 12 + 31 = year_length y.
Proof.
  unfold year_length. month_tables. destruct (isleap y); lia.
Qed.

Lemma days_before_year_succ (y : Z) :
  days_before_year (y + 1) = days_before_year y + year_length y.
Proof.
  unfold days_before_year, year_length, isleap. cbv zeta.
  replace (y + 1 - 1) with y by lia.
  destruct (y mod 4 =? 0) eqn:E4; destruct (y mod 100 =? 0) eqn:E100;
    destruct (y mod 400 =? 0) eqn:E400; cbn [andb orb negb];
    rewrite ?Z.eqb_eq, ?Z.eqb_neq in *; Z.div_mod_to_equations; lia.
Qed.

Lemma year_length_pos (y : Z) : 365 <= year_length y <= 366.
Proof. unfold year_length. destruct (isleap y); lia. Qed.

Lemma days_before_year_mono (y1 y2 : Z) :
  y1 <= y2 -> days_before_year y1 <= days_before_year y2.
Proof.
  intros H. replace y2 with (y1 + Z.of_nat (Z.to_nat (y2 - y1))) by lia.
  induction (Z.to_nat (y2 - y1)) as [|n IH].
  - replace (y1 + Z.of_nat 0) with y1 by lia. lia.
  - replace (y1 + Z.of_nat (S n)) with (y1 + Z.of_nat n + 1) by lia.
    rewrite days_before_year_succ.
    pose proof (year_length_pos (y1 + Z.of_nat n)). lia.
Qed.

Lemma day_of_year_bounds (d : date) :
  well_formed d ->
  1 <= days_before_month (year d) (month d) + day d <= year_length (year d).
Proof.
  intros [Hm Hd]. revert Hd.
  unfold year_length.
  each_month (month d) Hm; month_tables; destruct (isleap (year d)); lia.
Qed.

Lemma toordinal_bounds (d : date) :
  well_formed d ->
  days_before_year (year d) < toordinal d <= days_before_year (year d + 1).
Proof.
  intros H. pose proof (day_of_year_bounds d H).
  rewrite days_before_year_succ. unfold toordinal. lia.
Qed.

Lemma days_before_month_mono (y m1 m2 : Z) :
  1 <= m1 <= 12 -> 1 <= m2 <= 12 -> m1 < m2 ->
  days_before_month y m1 + monthrange y m1 <= days_before_month y m2.
Proof.
  intros H1 H2 Hlt.
  each_month m1 H1; each_month m2 H2; try lia;
    month_tables; destruct (isleap y); lia.
Qed.

(** The order of dates is the order of their ordinals. *)
Lemma date_ltb_toordinal (a b : date) :
  well_formed a -> well_formed b ->
  date_ltb a b = true -> toordinal a < toordinal b.
Proof.
  intros Ha Hb. unfold date_ltb.
  rewrite orb_true_iff, !andb_true_iff, orb_true_iff, andb_true_iff,
    !Z.ltb_lt, !Z.eqb_eq.
  intros [Hy | [Hy [Hm | [Hm Hd]]]].
  - pose proof (toordinal_bounds a Ha). pose proof (toordinal_bounds b Hb).
    pose proof (days_before_year_mono (year a + 1) (year b)). lia.
  - destruct Ha as [Ha1 Ha2], Hb as [Hb1 Hb2].
    pose proof (days_before_month_mono (year a) _ _ Ha1 Hb1 Hm).
    unfold toordinal. rewrite <- Hy. lia.
  - unfold toordinal. rewrite Hy, Hm. lia.
Qed.

Lemma date_order_total (a b : date) :
  date_ltb a b = true \/ a = b \/ date_ltb b a = true.
Proof.
  destruct a as [ya ma da], b as [yb mb db]. unfold date_ltb. simpl.
  destruct (Z.lt_total ya yb) as [H|[H|H]].
  - left. apply orb_true_iff. left. now apply Z.ltb_lt.
  - subst yb. rewrite Z.eqb_refl, Z.ltb_irrefl. simpl.
    destruct (Z.lt_total ma mb) as [H|[H|H]].
    + left. apply orb_true_iff. left. now apply Z.ltb_lt.
    + subst mb. rewrite Z.eqb_refl, Z.ltb_irrefl. simpl.
      destruct (Z.lt_total da db) as [H|[H|H]].
      * left. now apply Z.ltb_lt.
      * right; left. now subst.
      * right; right. now apply Z.ltb_lt.
    + right; right. apply orb_true_iff. left. now apply Z.ltb_lt.
  - right; right. apply orb_true_iff. left. now apply Z.ltb_lt.
Qed.

Lemma date_eqb_eq (a b : date) : date_eqb a b = true <-> a = b.
Proof.
  destruct a as [ya ma da], b as [yb mb db]. unfold date_eqb. simpl.
  rewrite !andb_true_iff, !Z.eqb_eq. split.
  - intros [[-> ->] ->]. reflexivity.
  - intros H; injection H as -> -> ->. auto.
Qed.

Lemma toordinal_date_leb (a b : date) :
  well_formed a -> well_formed b ->
  (date_leb a b = true <-> toordinal a <= toordinal b).
Proof.
  intros Ha Hb. unfold date_leb. rewrite orb_true_iff, date_eqb_eq. split.
  - intros [H | ->]; [|lia]. pose proof (date_ltb_toordinal a b Ha Hb H). lia.
  - intros H. destruct (date_order_total a b) as [L|[E|G]]; auto.
    pose proof (date_ltb_toordinal b a Hb Ha G). lia.
Qed.

Lemma toordinal_date_ltb (a b : date) :
  well_formed a -> well_formed b ->
  (date_ltb a b = true <-> toordinal a < toordinal b).
Proof.
  intros Ha Hb. split; [now apply date_ltb_toordinal|].
  intros H. destruct (date_order_total a b) as [L|[E|G]]; auto.
  - subst. lia.
  - pose proof (date_ltb_toordinal b a Hb Ha G). lia.
Qed.

Lemma next_day_spec (d : date) :
  well_formed d ->
  well_formed (next_day d) /\ toordinal (next_day d) = toordinal d + 1.
Proof.
  intros [Hm Hd]. unfold next_day, well_formed, toordinal.
  destruct (day d <? monthrange (year d) (month d)) eqn:E1; cbn [year month day].
  - apply Z.ltb_lt in E1. repeat split; lia.
  - apply Z.ltb_ge in E1.
    destruct (month d <? 12) eqn:E2; cbn [year month day].
    + apply Z.ltb_lt in E2.
      pose proof (monthrange_bounds (year d) (month d + 1)).
      rewrite days_before_month_succ by lia.
      repeat split; lia.
    + apply Z.ltb_ge in E2. assert (E : month d = 12) by lia.
      rewrite days_before_year_succ, <- days_before_month_december.
      rewrite E in *. revert Hd E1. month_tables. intros. repeat split; lia.
Qed.

Lemma plus_days_spec (n : nat) (d : date) :
  well_formed d ->
  well_formed (plus_days n d) /\
  toordinal (plus_days n d) = toordinal d + Z.of_nat n.
Proof.
  revert d. induction n as [|n IH]; intros d Hd; cbn [plus_days].
  - split; [exact Hd | lia].
  - destruct (next_day_spec d Hd) as [Hw Ho].
    destruct (IH _ Hw) as [Hw' Ho']. split; [exact Hw' | lia].
Qed.

(** A week never reaches past the following year. *)
Lemma plus_days_year (n : nat) (d : date) :
  well_formed d -> (n <= 365)%nat ->
  year d <= year (plus_days n d) <= year d + 1.
Proof.
  intros Hd Hn. destruct (plus_days_spec n d Hd) as [Hw Ho].
  pose proof (toordinal_bounds d Hd) as B.
  pose proof (toordinal_bounds _ Hw) as B'.
  set (d' := plus_days n d) in *.
  split.
  - destruct (Z_lt_le_dec (year d') (year d)) as [L|L]; [|exact L].
    pose proof (days_before_year_mono (year d' + 1) (year d)). lia.
  - destruct (Z_lt_le_dec (year d + 1) (year d')) as [L|L]; [|exact L].
    pose proof (days_before_year_mono (year d + 2) (year d')).
    pose proof (days_before_year_succ (year d + 1)).
    pose proof (year_length_pos (year d + 1)).
    replace (year d + 1 + 1) with (year d + 2) in * by lia. lia.
Qed.

Lemma date_add_days_week (d : date) :
  valid_date d = true -> year d < MAXYEAR ->
  exists d', date_add_days d 7 = Some d' /\ SevenDaysLater d d'.
Proof.
  intros Hv Hy. apply valid_date_well_formed in Hv. destruct Hv as [Hw Hr].
  destruct (plus_days_spec 7 d Hw) as [Hw' Ho].
  pose proof (plus_days_year 7 d Hw ltac:(lia)) as Hyr.
  unfold date_add_days. exists (plus_days 7 d).
  unfold MINYEAR, MAXYEAR in *.
  replace (year (plus_days 7 d) <=? 9999) with true
    by (symmetry; apply Z.leb_le; lia).
  split; [reflexivity|]. split.
  - apply valid_date_well_formed. unfold MINYEAR, MAXYEAR. split; [exact Hw' | lia].
  - exact Ho.
Qed.

Lemma OneMonthLater_cases (d d' : date) :
  valid_date d = true -> OneMonthLater d d' ->
  (month d = 12 /\ year d' = year d + 1 /\ month d' = 1) \/
  (month d < 12 /\ year d' = year d /\ month d' = month d + 1).
Proof.
  intros Hv (Hv' & Hi & _).
  apply valid_date_well_formed in Hv, Hv'.
  destruct Hv as [[Hm _] _], Hv' as [[Hm' _] _].
  unfold month_index in Hi. lia.
Qed.

Lemma OneMonthLater_gap (d d' : date) :
  valid_date d = true -> OneMonthLater d d' ->
  date_ltb d d' = true /\ toordinal d + 28 <= toordinal d'.
Proof.
  intros Hv H. pose proof (OneMonthLater_cases d d' Hv H) as Hc.
  destruct H as (Hv' & _ & Hday).
  apply valid_date_well_formed in Hv, Hv'.
  destruct Hv as [Hw _], Hv' as [Hw' _].
  assert (G : toordinal d + 28 <= toordinal d').
  { destruct Hw as [Hm Hd]. destruct Hw' as [Hm' Hd'].
    pose proof (monthrange_bounds (year d) (month d) Hm).
    pose proof (monthrange_bounds (year d') (month d') Hm').
    unfold toordinal.
    destruct Hc as [(E & Ey & Em) | (E & Ey & Em)]; rewrite Ey, Em in *.
    - rewrite days_before_year_succ, <- days_before_month_december.
      rewrite E in *. revert Hday Hd Hd'. month_tables. lia.
    - rewrite days_before_month_succ by lia. lia. }
  split; [|exact G]. apply toordinal_date_ltb; auto. lia.
Qed.

Lemma SevenDaysLater_gap (d d' : date) :
  valid_date d = true -> SevenDaysLater d d' ->
  date_ltb d d' = true.
Proof.
  intros Hv [Hv' Ho]. apply valid_date_well_formed in Hv, Hv'.
  apply toordinal_date_ltb; try tauto. lia.
Qed.

Lemma advance_monthly (d : date) :
  valid_date d = true -> year d < MAXYEAR ->
  exists d', Rev155147.advance Rev155147.monthly d = Some d' /\ OneMonthLater d d'.
Proof.
  intros Hv Hy. pose proof Hv as Hv0.
  apply valid_date_well_formed in Hv. destruct Hv as [[Hm Hd] Hr].
  unfold Rev155147.advance. cbv zeta.
  set (y := year d + (if month d =? 12 then 1 else 0)).
  set (m := if month d =? 12 then 1 else month d + 1).
  assert (Hm' : 1 <= m <= 12).
  { unfold m. destruct (month d =? 12) eqn:E; [lia|]. apply Z.eqb_neq in E. lia. }
  assert (Hy' : MINYEAR <= y <= MAXYEAR).
  { unfold y, MINYEAR, MAXYEAR in *. destruct (month d =? 12); lia. }
  pose proof (monthrange_bounds y m Hm') as Hb.
  assert (Hvd : valid_date (mkdate y m (Z.min (day d) (monthrange y m))) = true).
  { apply valid_date_well_formed. unfold well_formed. cbn [year month day].
    repeat split; lia. }
  unfold new_date. rewrite Hvd. eexists. split; [reflexivity|].
  split; [exact Hvd|]. unfold month_index. cbn [year month day]. split.
  - unfold y, m. destruct (month d =? 12) eqn:E.
    + apply Z.eqb_eq in E. lia.
    + lia.
  - reflexivity.
Qed.


Lemma date_leb_year (a b : date) : date_leb a b = true -> year a <= year b.
Proof.
  unfold date_leb, date_ltb, date_eqb.
  rewrite !orb_true_iff, !andb_true_iff, Z.ltb_lt, !Z.eqb_eq. lia.
Qed.

(** ** The scheduler pass *)

Section Pass.

Import Rev155147.

Lemma advance_Later (i : RecurrenceIntervalEnum) (d : date) :
  valid_date d = true -> year d < MAXYEAR ->
  exists d', advance i d = Some d' /\ Later i d d'.
Proof.
  intros Hv Hy. destruct i.
  - exact (advance_monthly d Hv Hy).
  - exact (date_add_days_week d Hv Hy).
Qed.

Lemma same_rule_refl (r : RecurringTransaction) : same_rule r r.
Proof. repeat split. Qed.

Lemma same_rule_set_next_run (r : RecurringTransaction) (d : date) :
  same_rule r (set_next_run r d).
Proof. repeat split. Qed.

Lemma run_rules_spec (today : date) (rules : list RecurringTransaction) :
  ValidRules rules -> year today < MAXYEAR ->
  exists rs txs cs,
    run_rules today rules = Some (rs, txs, cs) /\
    Forall2 (Rescheduled today) rules rs /\
    Forall2 (fun r (mk : pending) => forall id, Materialized r (mk id) /\ tx_id (mk id) = id)
            (filter (is_due today) rules) txs /\
    cs = map (fun r => mkCreated (r_id r) (r_amount r) (r_category r))
             (filter (is_due today) rules).
Proof.
  intros Hv Hy. induction rules as [|r rules IH].
  - exists [], [], []. repeat split; constructor.
  - assert (Hv' : ValidRules rules).
    { intros x d Hin. apply (Hv x d). now right. }
    destruct (IH Hv') as (rs & txs & cs & E & Hrs & Htxs & Hcs).
    cbn [run_rules filter].
    assert (Hdue : is_due today r
                   = match r_next_run r with
                     | Some d => date_leb d today
                     | None => false
                     end) by reflexivity.
    destruct (r_next_run r) as [d|] eqn:En.
    + destruct (date_leb d today) eqn:Ed; rewrite Hdue.
      * assert (Hvd : valid_date d = true) by (apply (Hv r d); [now left | exact En]).
        pose proof (date_leb_year _ _ Ed) as Hyd.
        destruct (advance_Later (r_interval r) d Hvd ltac:(lia)) as (d' & Ea & Hl).
        rewrite Ea, E. eexists _, _, _. split; [reflexivity|].
        split; [|split].
        -- constructor; [|exact Hrs]. split; [apply same_rule_set_next_run|].
           rewrite En, Ed. now exists d'.
        -- constructor; [|exact Htxs]. intros id. split; [|reflexivity].
           exists d. repeat split. exact En.
        -- subst cs. reflexivity.
      * rewrite E. eexists _, _, _. split; [reflexivity|].
        split; [|split]; auto.
        constructor; [|exact Hrs]. split; [apply same_rule_refl|].
        now rewrite En, Ed.
    + rewrite Hdue, E. eexists _, _, _. split; [reflexivity|].
      split; [|split]; auto.
      constructor; [|exact Hrs]. split; [apply same_rule_refl|].
      now rewrite En.
Qed.

Lemma insert_all_spec (new : list pending) :
  forall rows : list Transaction,
  exists txs,
    insert_all rows new = rows ++ txs /\
    Forall2 (fun (mk : pending) tx => exists id, tx = mk id) new txs.
Proof.
  unfold insert_all. induction new as [|mk new IH]; intros rows; cbn [fold_left].
  - exists []. split; [now rewrite app_nil_r | constructor].
  - destruct (IH (rows ++ [mk (fresh_id (map tx_id rows))])) as (txs & E & H).
    exists (mk (fresh_id (map tx_id rows)) :: txs). split.
    + rewrite E, <- app_assoc. reflexivity.
    + constructor; [now eexists | exact H].
Qed.

Lemma Forall2_compose {A B C : Type} (P : A -> B -> Prop) (Q : B -> C -> Prop)
    (R : A -> C -> Prop) (la : list A) (lb : list B) (lc : list C) :
  (forall a b c, P a b -> Q b c -> R a c) ->
  Forall2 P la lb -> Forall2 Q lb lc -> Forall2 R la lc.
Proof.
  intros H HP. revert lc. induction HP as [|a b la lb Hab _ IH]; intros lc HQ.
  - inversion HQ. constructor.
  - inversion HQ as [|? c ? lc' Hbc HQ']; subst. constructor; eauto.
Qed.

(** A pass on day [today] over a table of valid dates, before the last
    year of the calendar. *)
Lemma run_due_recurrences_spec (db : database) (today : date) :
  ValidRules (recurring db) -> year today < MAXYEAR ->
  exists cs db' txs,
    run_due_recurrences db today = (run_ok cs, db') /\
    transactions db' = transactions db ++ txs /\
    Forall2 Materialized (filter (is_due today) (recurring db)) txs /\
    Forall2 (Rescheduled today) (recurring db) (recurring db') /\
    budgets db' = budgets db /\ goals db' = goals db /\
    cs = map (fun r => mkCreated (r_id r) (r_amount r) (r_category r))
             (filter (is_due today) (recurring db)).
Proof.
  intros Hv Hy.
  destruct (run_rules_spec today (recurring db) Hv Hy)
    as (rs & pend & cs & E & Hrs & Hp & Hcs).
  destruct (insert_all_spec pend (transactions db)) as (txs & Ei & Hi).
  unfold run_due_recurrences. rewrite E.
  eexists _, _, txs. split; [reflexivity|].
  cbn [transactions recurring budgets goals].
  repeat split; auto.
  eapply Forall2_compose; [|exact Hp|exact Hi].
  intros r mk tx H [id ->]. apply H.
Qed.

End Pass.




Example pass_on_sample :
  map Rev155147.r_next_run
      (Rev155147.recurring
         (snd (Rev155147.run_due_recurrences sample_db sample_today)))
  = [Some (mkdate 2025 2 28); Some (mkdate 2025 9 12); Some (mkdate 2025 12 15)] /\
  map (fun tx => (Rev155147.tx_id tx, Rev155147.tx_ts tx, Rev155147.tx_recurring_id tx))
      (skipn 3 (Rev155147.transactions
                  (snd (Rev155147.run_due_recurrences sample_db sample_today))))
  = [(4, midnight (mkdate 2025 1 31), Some 1);
     (5, midnight (mkdate 2025 9 5), Some 2)].
Proof. split; reflexivity. Qed.

Lemma Later_gap (i : Rev155147.RecurrenceIntervalEnum) (d d' : date) :
  valid_date d = true -> Later i d d' ->
  valid_date d' = true /\ date_ltb d d' = true /\
  toordinal d + interval_days i <= toordinal d'.
Proof.
  intros Hv H. destruct i; cbn [Later interval_days] in *.
  - destruct (OneMonthLater_gap d d' Hv H) as [H1 H2].
    destruct H as (Hv' & _). auto.
  - pose proof (SevenDaysLater_gap d d' Hv H) as H1.
    destruct H as (Hv' & Ho). repeat split; auto. lia.
Qed.




(** ** The later revision *)

Section Later_revision.

Import Rev235636.

(** The parser of the later revision has no "purchase" keyword and no id
    lookup. *)
Example rev235636_parser_differences :
  intent_of (parse_command (txt "purchase 5") sample_now) = intent_unknown /\
  intent_of (parse_command (txt "99") sample_now) = intent_unknown /\
  intent_of (parse_command (txt "paid 5") sample_now) = intent_unknown.
Proof. repeat split. Qed.

Lemma rev235636_parse_entry (t : text) (utcnow : datetime) (e : entry) :
  parse_command t utcnow = parsed_add e \/
  parse_command t utcnow = parsed_add_income e ->
  description e = lower t /\
  amount e = option_map float_of (search_amount (lower t)) /\
  (category e = txt "expense" \/ category e = txt "income").
Proof.
  unfold parse_command.
  repeat match goal with
         | |- context [if ?b then _ else _] => destruct b
         end;
    intros [H|H]; try discriminate H; injection H as <-; repeat split; auto.
Qed.

(** The summary branch is the one of the earlier revision. *)
Lemma rev235636_summary_totals (db : database) (t : text) (utcnow : datetime) :
  intent_of (parse_command t utcnow) = intent_summary ->
  exists income expense balance : Q,
    handle_command db t utcnow = (JSONResponse (summary_of income expense balance), db) /\
    (income == total_amount_235636 false (transactions db))%Q /\
    (expense == total_amount_235636 true (transactions db))%Q /\
    balance = (income - expense)%Q.
Proof.
  intros Hi. unfold handle_command.
  destruct (parse_command t utcnow); try discriminate Hi.
  eexists _, _, _. split; [reflexivity|].
  assert (Hsum : forall flag rows,
            (sum (map tx_amount (filter (fun r => Bool.eqb (tx_is_expense r) flag) rows))
             == total_amount_235636 flag rows)%Q).
  { intros flag rows. induction rows as [|r rows IH]; simpl; [reflexivity|].
    destruct (Bool.eqb (tx_is_expense r) flag); simpl.
    - rewrite sum_cons, IH. reflexivity.
    - rewrite IH. ring. }
  split; [|split].
  - rewrite <- Hsum. erewrite filter_ext; [reflexivity|].
    intros r; simpl. now destruct (tx_is_expense r).
  - rewrite <- Hsum. erewrite filter_ext; [reflexivity|].
    intros r; simpl. now destruct (tx_is_expense r).
  - reflexivity.
Qed.

(** So is the add branch without an amount. *)
Lemma rev235636_need_amount (db : database) (t : text) (utcnow : datetime) :
  intent_of (parse_command t utcnow) = intent_add \/
  intent_of (parse_command t utcnow) = intent_add_income ->
  ~ HasAmount t ->
  exists cat, handle_command db t utcnow = (JSONResponse (need_amount (lower t) cat), db).
Proof.
  intros Hi Hno. apply search_amount_lower_None in Hno.
  unfold handle_command.
  destruct (parse_command t utcnow) as [e|e| | | |] eqn:E;
    cbn [intent_of] in Hi; try (destruct Hi as [Hi|Hi]; discriminate Hi).
  - destruct (rev235636_parse_entry t utcnow e (or_introl E)) as (Hd & Ha & _).
    rewrite Hno in Ha. unfold add_entry. rewrite Ha, Hd. now eexists.
  - destruct (rev235636_parse_entry t utcnow e (or_intror E)) as (Hd & Ha & _).
    rewrite Hno in Ha. unfold add_entry. rewrite Ha, Hd. now eexists.
Qed.

(** And the read-only branches. *)
Lemma rev235636_read_only (db : database) (t : text) (utcnow : datetime) :
  intent_of (parse_command t utcnow) = intent_summary \/
  intent_of (parse_command t utcnow) = intent_list \/
  intent_of (parse_command t utcnow) = intent_unknown ->
  snd (handle_command db t utcnow) = db.
Proof.
  intros H. unfold handle_command.
  destruct (parse_command t utcnow); cbn [intent_of] in H;
    try reflexivity; exfalso; destruct H as [H|[H|H]]; discriminate H.
Qed.

(** [create_budget] always inserts: two calls for one category leave two
    rows of it. *)
Lemma rev235636_create_budget_inserts (db : database) (cat : text) (m1 m2 : Q) :
  exists b1 b2,
    budgets (snd (create_budget (snd (create_budget db cat m1)) cat m2))
    = budgets db ++ [b1; b2] /\
    b_category b1 = cat /\ b_category b2 = cat /\
    b_monthly_amount b1 = m1 /\ b_monthly_amount b2 = m2.
Proof.
  unfold create_budget. cbn [snd budgets].
  eexists _, _. rewrite <- app_assoc. split; [reflexivity|]. repeat split.
Qed.

(** [run_due] dates the transaction at the time of the pass, moves a due
    monthly rule to the first day of the month it is in, and raises on a
    due weekly rule. *)
Example rev235636_run_due_monthly :
  let rule := mkRecurring 1 (txt "rent") (700 # 1) (txt "rent") (txt "monthly")
                (midnight (mkdate 2025 1 31)) in
  let db := mkDatabase [] [] [] [rule] in
  map r_next_run (recurring (snd (run_due db sample_now)))
    = [midnight (mkdate 2025 1 1)] /\
  map tx_ts (transactions (snd (run_due db sample_now))) = [sample_now].
Proof. split; reflexivity. Qed.

Example rev235636_run_due_weekly :
  let rule := mkRecurring 1 (txt "gym") (10 # 1) (txt "sport") (txt "weekly")
                (midnight (mkdate 2025 9 5)) in
  let db := mkDatabase [] [] [] [rule] in
  run_due db sample_now = (None, db).
Proof. reflexivity. Qed.

End Later_revision.

(** ** Two remarks on the hypotheses *)

(** In the last month of the calendar the date arithmetic of a due rule
    raises and the pass commits nothing. *)
Example pass_in_last_year_raises :
  let rule := Rev155147.mkRecurring 1 (txt "rent") (700 # 1) (txt "rent") true
                Rev155147.monthly (Some (mkdate 9999 12 15)) in
  let db := Rev155147.mkDatabase [] [] [] [rule] in
  Rev155147.run_due_recurrences db (mkdate 9999 12 20) = (Rev155147.run_raised, db).
Proof. reflexivity. Qed.

(** On timestamps that are not after [now], the rows the budget check
    sums are those of the calendar month of [now]. *)
Lemma month_start_window (now ts : datetime) :
  proper_timestamp ts ->
  datetime_leb ts now = true ->
  datetime_leb (month_start now) ts = in_month_to_date now ts.
Proof.
  intros [Hd Ht] Hle. unfold in_month_to_date. rewrite Hle, andb_true_r.
  revert Hle. unfold datetime_leb, month_start, midnight, date_ltb, date_eqb.
  cbn [dt_date dt_time year month day].
  destruct ts as [[y m d] t], now as [[y' m' d'] t'].
  cbn [dt_date dt_time year month day] in *.
  intros Hle.
  apply orb_true_iff in Hle.
  rewrite !andb_true_iff, !orb_true_iff, !andb_true_iff, !Z.ltb_lt, !Z.eqb_eq,
    Z.leb_le in Hle.
  apply eq_true_iff_eq.
  rewrite !orb_true_iff, !andb_true_iff, !orb_true_iff, !andb_true_iff,
    !Z.ltb_lt, !Z.eqb_eq, Z.leb_le.
  lia.
Qed.

(* ================================================================== *)
(** * Further properties of the code                                    *)
(* ================================================================== *)

(** ** Identifiers *)

Lemma fold_max_ge (ids : list Z) (x : Z) :
  In x ids -> x <= fold_right Z.max 0 ids.
Proof.
  induction ids as [|y ids IH]; simpl; [intros []|].
  intros [->|H]; [lia|]. specialize (IH H). lia.
Qed.

Lemma fresh_id_above (ids : list Z) (x : Z) : In x ids -> x < fresh_id ids.
Proof. intros H. unfold fresh_id. pose proof (fold_max_ge ids x H). lia. Qed.

Lemma fresh_id_not_in (ids : list Z) : ~ In (fresh_id ids) ids.
Proof. intros H. apply fresh_id_above in H. lia. Qed.

Lemma NoDup_snoc_fresh (ids : list Z) :
  NoDup ids -> NoDup (ids ++ [fresh_id ids]).
Proof.
  intros H. apply Permutation_NoDup with (l := fresh_id ids :: ids).
  - apply Permutation_cons_append.
  - constructor; [apply fresh_id_not_in | exact H].
Qed.

Lemma NoDup_map_filter {A : Type} (f : A -> Z) (p : A -> bool) (l : list A) :
  NoDup (map f l) -> NoDup (map f (filter p l)).
Proof.
  induction l as [|x l IH]; simpl; [auto|].
  intros H. inversion H as [|? ? Hn Hd]; subst.
  destruct (p x); simpl; [|now apply IH].
  constructor; [|now apply IH].
  intros Hin. apply Hn. apply in_map_iff in Hin. destruct Hin as (y & Hy & Hin).
  apply filter_In in Hin. rewrite <- Hy. apply in_map. tauto.
Qed.

(** X1: whatever the payload, a command leaves the budgets, goals and
    recurring rules as they were, and keeps the transaction ids distinct
    when they were. *)
Theorem handle_command_frame :
  forall (db : Rev155147.database) (payload : option text)
         (utcnow now : datetime),
    NoDup (map Rev155147.tx_id (Rev155147.transactions db)) ->
    let db' := snd (Rev155147.handle_command db payload utcnow now) in
    Rev155147.budgets db' = Rev155147.budgets db /\
    Rev155147.goals db' = Rev155147.goals db /\
    Rev155147.recurring db' = Rev155147.recurring db /\
    NoDup (map Rev155147.tx_id (Rev155147.transactions db')).
Proof.
  intros db payload utcnow now Hnd. cbv zeta.
  unfold Rev155147.handle_command.
  destruct payload as [[|c t]|]; try (repeat split; assumption).
  destruct (Rev155147.parse_command (c :: t) utcnow) as [e|e| | | | |];
    try (repeat split; assumption).
  - unfold Rev155147.add_entry.
    destruct (Rev155147.amount e); [|repeat split; assumption].
    cbn [snd Rev155147.set_transactions Rev155147.transactions
         Rev155147.budgets Rev155147.goals Rev155147.recurring].
    repeat split. rewrite map_app. cbn [map Rev155147.tx_id].
    now apply NoDup_snoc_fresh.
  - unfold Rev155147.add_entry.
    destruct (Rev155147.amount e); [|repeat split; assumption].
    cbn [snd Rev155147.set_transactions Rev155147.transactions
         Rev155147.budgets Rev155147.goals Rev155147.recurring].
    repeat split. rewrite map_app. cbn [map Rev155147.tx_id].
    now apply NoDup_snoc_fresh.
  - destruct (search_id (c :: t)); [|repeat split; assumption].
    destruct (Rev155147.find_transaction _ _); [|repeat split; assumption].
    cbn [snd Rev155147.set_transactions Rev155147.transactions
         Rev155147.budgets Rev155147.goals Rev155147.recurring].
    repeat split. now apply NoDup_map_filter.
  - destruct (Rev155147.find_transaction _ _); repeat split; assumption.
Qed.

Lemma sample_db_ids : NoDup (map Rev155147.tx_id (Rev155147.transactions sample_db)).
Proof.
  simpl. repeat constructor; simpl; intuition discriminate.
Qed.

Lemma handle_command_frame_witness :
  NoDup (map Rev155147.tx_id (Rev155147.transactions sample_db)) /\
  Rev155147.budgets
    (snd (Rev155147.handle_command sample_db (Some (txt "spent 3 on tea"))
            sample_now sample_now))
  = Rev155147.budgets sample_db /\
  Rev155147.goals
    (snd (Rev155147.handle_command sample_db (Some (txt "spent 3 on tea"))
            sample_now sample_now))
  = Rev155147.goals sample_db /\
  Rev155147.recurring
    (snd (Rev155147.handle_command sample_db (Some (txt "spent 3 on tea"))
            sample_now sample_now))
  = Rev155147.recurring sample_db /\
  NoDup (map Rev155147.tx_id
           (Rev155147.transactions
              (snd (Rev155147.handle_command sample_db
                      (Some (txt "spent 3 on tea")) sample_now sample_now)))).
Proof.
  split; [exact sample_db_ids|].
  exact (handle_command_frame sample_db (Some (txt "spent 3 on tea"))
           sample_now sample_now sample_db_ids).
Defined.

(** ** Adding, then looking up *)

Lemma find_snoc {A : Type} (p : A -> bool) (l : list A) (x : A) :
  (forall r, In r l -> p r = false) -> p x = true ->
  find p (l ++ [x]) = Some x.
Proof.
  intros Hno Hx. induction l as [|r l IH]; simpl.
  - now rewrite Hx.
  - rewrite (Hno r (or_introl eq_refl)). apply IH.
    intros y Hy. apply Hno. now right.
Qed.




(** ** The list of the most recent transactions *)

Lemma datetime_leb_le (a b : datetime) :
  datetime_leb a b = true <-> datetime_le a b.
Proof.
  unfold datetime_leb, datetime_le, date_ltb, date_eqb. cbv zeta.
  rewrite !orb_true_iff, !andb_true_iff, !orb_true_iff, !andb_true_iff,
    !Z.ltb_lt, !Z.eqb_eq, Z.leb_le.
  lia.
Qed.

Lemma datetime_le_total (a b : datetime) : datetime_le a b \/ datetime_le b a.
Proof. unfold datetime_le. cbv zeta. lia. Qed.

Lemma datetime_le_trans (a b c : datetime) :
  datetime_le a b -> datetime_le b c -> datetime_le a c.
Proof. unfold datetime_le. cbv zeta. lia. Qed.

Lemma insert_desc_perm (x : Rev155147.Transaction) (l : list Rev155147.Transaction) :
  Permutation (Rev155147.insert_desc x l) (x :: l).
Proof.
  induction l as [|h l IH]; simpl; [reflexivity|].
  destruct (datetime_leb (Rev155147.tx_ts h) (Rev155147.tx_ts x)); [reflexivity|].
  rewrite IH. apply perm_swap.
Qed.

Lemma insert_desc_sorted (x : Rev155147.Transaction)
    (l : list Rev155147.Transaction) :
  StronglySorted newer_or_equal l ->
  StronglySorted newer_or_equal (Rev155147.insert_desc x l).
Proof.
  intros Hs. induction Hs as [|h l Hs IH Hall]; simpl.
  - repeat constructor.
  - destruct (datetime_leb (Rev155147.tx_ts h) (Rev155147.tx_ts x)) eqn:E.
    + apply datetime_leb_le in E. constructor.
      * now constructor.
      * constructor; [exact E|].
        eapply Forall_impl; [|exact Hall]. intros y Hy.
        unfold newer_or_equal in *. eapply datetime_le_trans; eassumption.
    + constructor; [exact IH|].
      assert (Hx : newer_or_equal h x).
      { unfold newer_or_equal.
        destruct (datetime_le_total (Rev155147.tx_ts x) (Rev155147.tx_ts h))
          as [H|H]; [exact H|].
        apply datetime_leb_le in H. congruence. }
      eapply Permutation_Forall.
      * symmetry. apply insert_desc_perm.
      * now constructor.
Qed.

Lemma order_by_ts_desc_spec (rows : list Rev155147.Transaction) :
  Permutation (Rev155147.order_by_ts_desc rows) rows /\
  StronglySorted newer_or_equal (Rev155147.order_by_ts_desc rows).
Proof.
  unfold Rev155147.order_by_ts_desc.
  induction rows as [|r rows [IHp IHs]]; simpl.
  - split; constructor.
  - split.
    + rewrite insert_desc_perm. now constructor.
    + now apply insert_desc_sorted.
Qed.

(** X3: a text classified as list is answered with the stored
    transactions ordered from the newest to the oldest and cut after the
    first 200: the rows listed, followed by the rows left out, are all the
    stored rows in descending order of timestamp; the store is unchanged. *)
Theorem list_newest_first :
  forall (db : Rev155147.database) (t : text) (utcnow now : datetime),
    Rev155147.intent_of (Rev155147.parse_command t utcnow)
      = Rev155147.intent_list ->
    exists listed rest : list Rev155147.Transaction,
      Rev155147.handle_command db (Some t) utcnow now
        = (Rev155147.JSONResponse (Rev155147.transactions_of listed), db) /\
      Permutation (listed ++ rest) (Rev155147.transactions db) /\
      StronglySorted newer_or_equal (listed ++ rest) /\
      List.length listed
        = Nat.min 200 (List.length (Rev155147.transactions db)).
Proof.
  intros db t utcnow now Hi.
  assert (Hne : t <> []) by (intros ->; vm_compute in Hi; discriminate Hi).
  destruct (order_by_ts_desc_spec (Rev155147.transactions db)) as [Hp Hs].
  set (sorted := Rev155147.order_by_ts_desc (Rev155147.transactions db)) in *.
  exists (firstn 200 sorted), (skipn 200 sorted).
  unfold Rev155147.handle_command.
  destruct t as [|c t]; [now elim Hne|].
  destruct (Rev155147.parse_command (c :: t) utcnow); try discriminate Hi.
  rewrite firstn_skipn. repeat split; auto.
  rewrite length_firstn. now rewrite (Permutation_length Hp).
Qed.

Lemma list_newest_first_witness :
  Rev155147.intent_of (Rev155147.parse_command (txt "list all") sample_now)
    = Rev155147.intent_list /\
  exists listed rest : list Rev155147.Transaction,
    Rev155147.handle_command sample_db (Some (txt "list all")) sample_now sample_now
      = (Rev155147.JSONResponse (Rev155147.transactions_of listed), sample_db) /\
    Permutation (listed ++ rest) (Rev155147.transactions sample_db) /\
    StronglySorted newer_or_equal (listed ++ rest) /\
    List.length listed
      = Nat.min 200 (List.length (Rev155147.transactions sample_db)).
Proof.
  split; [reflexivity|].
  apply (list_newest_first sample_db (txt "list all") sample_now sample_now).
  reflexivity.
Defined.

(** ** Letter case *)











(** ** The amount is the first numeral *)






(** ** The category follows its keyword *)






(** ** Budgets, goals and recurring rules: create, list, delete *)

Lemma NoDup_map_inj {A : Type} (key : A -> Z) (l : list A) (x y : A) :
  NoDup (map key l) -> In x l -> In y l -> key x = key y -> x = y.
Proof.
  induction l as [|z l IH]; simpl; [intros _ []|].
  intros H. inversion H as [|? ? Hn Hd]; subst.
  intros [->|Hx] [->|Hy] E; auto.
  - exfalso. apply Hn. rewrite E. now apply in_map.
  - exfalso. apply Hn. rewrite <- E. now apply in_map.
Qed.

Lemma find_key (A : Type) (key : A -> Z) (l : list A) (i : Z) :
  match find (fun x => key x =? i) l with
  | Some x => In x l /\ key x = i
  | None => ~ In i (map key l)
  end.
Proof.
  destruct (find (fun x => key x =? i) l) as [x|] eqn:E.
  - apply find_some in E. destruct E as [Hin E]. apply Z.eqb_eq in E. now split.
  - intros Hin. apply in_map_iff in Hin. destruct Hin as (x & Hx & Hin).
    pose proof (find_none _ _ E x Hin) as Hf. simpl in Hf.
    apply Z.eqb_neq in Hf. contradiction.
Qed.

Lemma filter_absent_key (A : Type) (key : A -> Z) (l : list A) (i : Z) :
  ~ In i (map key l) -> filter (fun x => negb (key x =? i)) l = l.
Proof.
  induction l as [|x l IH]; simpl; [reflexivity|].
  intros H. destruct (key x =? i) eqn:E.
  - apply Z.eqb_eq in E. exfalso. apply H. now left.
  - simpl. f_equal. apply IH. intros Hin. apply H. now right.
Qed.

Lemma filter_snoc_fresh (A : Type) (key : A -> Z) (l : list A) (x : A) :
  key x = fresh_id (map key l) ->
  filter (fun y => negb (key y =? key x)) (l ++ [x]) = l.
Proof.
  intros E. rewrite filter_app. simpl. rewrite Z.eqb_refl. simpl.
  rewrite app_nil_r. apply filter_absent_key. rewrite E. apply fresh_id_not_in.
Qed.

Lemma find_snoc_fresh (A : Type) (key : A -> Z) (l : list A) (x : A) :
  key x = fresh_id (map key l) ->
  find (fun y => key y =? key x) (l ++ [x]) = Some x.
Proof.
  intros E. apply find_snoc; [|apply Z.eqb_refl].
  intros r Hr. apply Z.eqb_neq. rewrite E.
  pose proof (fresh_id_above _ _ (in_map key _ _ Hr)). lia.
Qed.

(** X7: with distinct budget ids, setting the budget of one category
    leaves the budget rows of every other category as they were, keeps the
    ids distinct and in their order, and reports a new id exactly when it
    reports [created]. *)
Theorem create_budget_frame :
  forall (db db' : Rev155147.database) (b : Rev155147.BudgetIn)
         (a : Rev155147.budget_action) (id : Z),
    NoDup (map Rev155147.b_id (Rev155147.budgets db)) ->
    Rev155147.create_budget db b = ((a, id), db') ->
    (forall cat, cat <> Rev155147.in_category b ->
       budgets_of cat (Rev155147.budgets db')
       = budgets_of cat (Rev155147.budgets db)) /\
    map Rev155147.b_id (Rev155147.budgets db')
    = map Rev155147.b_id (Rev155147.budgets db)
      ++ match a with Rev155147.created => [id] | Rev155147.updated => [] end /\
    NoDup (map Rev155147.b_id (Rev155147.budgets db')) /\
    (a = Rev155147.created <-> ~ In id (map Rev155147.b_id (Rev155147.budgets db))).
Proof.
  intros db db' b a id Hnd. unfold Rev155147.create_budget.
  destruct (Rev155147.find_budget (Rev155147.in_category b) (Rev155147.budgets db))
    as [e|] eqn:E.
  - intros H; injection H as <- <- <-.
    cbn [Rev155147.set_budgets Rev155147.budgets].
    apply find_some in E. destruct E as [Hin Hc]. apply text_eqb_eq in Hc.
    set (upd := fun x : Rev155147.Budget =>
                  if Rev155147.b_id x =? Rev155147.b_id e
                  then Rev155147.mkBudget (Rev155147.b_id x) (Rev155147.b_category x)
                         (Rev155147.in_monthly_amount b) (Rev155147.in_currency b)
                  else x).
    assert (Hcat : forall x, Rev155147.b_category (upd x) = Rev155147.b_category x).
    { intros x. unfold upd. now destruct (Rev155147.b_id x =? Rev155147.b_id e). }
    assert (Hid : forall x, Rev155147.b_id (upd x) = Rev155147.b_id x).
    { intros x. unfold upd. now destruct (Rev155147.b_id x =? Rev155147.b_id e). }
    assert (Hids : map Rev155147.b_id (map upd (Rev155147.budgets db))
                   = map Rev155147.b_id (Rev155147.budgets db)).
    { rewrite map_map. apply map_ext. exact Hid. }
    split; [|split; [|split; [|split]]].
    + intros cat Hne. rewrite (budgets_of_map cat upd _ Hcat).
      rewrite <- (map_id (budgets_of cat (Rev155147.budgets db))) at 2.
      apply map_ext_in. intros x Hx. unfold budgets_of in Hx.
      apply filter_In in Hx. destruct Hx as [Hx Hxc]. apply text_eqb_eq in Hxc.
      unfold upd. destruct (Rev155147.b_id x =? Rev155147.b_id e) eqn:Ei; [|reflexivity].
      apply Z.eqb_eq in Ei.
      pose proof (NoDup_map_inj Rev155147.b_id _ x e Hnd Hx Hin Ei) as ->.
      congruence.
    + now rewrite Hids, app_nil_r.
    + now rewrite Hids.
    + discriminate.
    + intros Hn. exfalso. apply Hn. now apply in_map.
  - intros H; injection H as <- <- <-.
    cbn [Rev155147.set_budgets Rev155147.budgets Rev155147.b_id].
    split; [|split; [|split; [|split]]].
    + intros cat Hne. unfold budgets_of. rewrite filter_app. simpl.
      destruct (text_eqb (Rev155147.in_category b) cat) eqn:Et.
      * apply text_eqb_eq in Et. congruence.
      * apply app_nil_r.
    + rewrite map_app. reflexivity.
    + rewrite map_app. simpl. now apply NoDup_snoc_fresh.
    + intros _. apply fresh_id_not_in.
    + reflexivity.
Qed.

Lemma create_budget_frame_witness :
  NoDup (map Rev155147.b_id (Rev155147.budgets sample_db)) /\
  budgets_of (txt "food")
    (Rev155147.budgets
       (snd (Rev155147.create_budget sample_db
               (Rev155147.mkBudgetIn (txt "travel") (300 # 1) (txt "EUR")))))
  = budgets_of (txt "food") (Rev155147.budgets sample_db).
Proof.
  assert (Hnd : NoDup (map Rev155147.b_id (Rev155147.budgets sample_db))).
  { simpl. repeat constructor; simpl; intuition discriminate. }
  split; [exact Hnd|].
  destruct (Rev155147.create_budget sample_db
              (Rev155147.mkBudgetIn (txt "travel") (300 # 1) (txt "EUR")))
    as [[a id] db'] eqn:E.
  refine (proj1 (create_budget_frame sample_db db' _ a id Hnd E) (txt "food") _).
  discriminate.
Defined.

Lemma delete_by_key (A : Type) (key : A -> Z) (l : list A) (i : Z) :
  match find (fun x => key x =? i) l with
  | Some x =>
      In i (map key l) /\
      let l' := filter (fun y => negb (key y =? key x)) l in
      ~ In i (map key l') /\
      (forall y, key y <> i -> (In y l' <-> In y l))
  | None => ~ In i (map key l)
  end.
Proof.
  pose proof (find_key A key l i) as H.
  destruct (find (fun x => key x =? i) l) as [x|]; [|exact H].
  destruct H as [Hin <-]. split; [now apply in_map|]. cbv zeta. split.
  - intros Hi. apply in_map_iff in Hi. destruct Hi as (y & Hy & Hi).
    apply filter_In in Hi. destruct Hi as [_ Hi].
    apply Z.eqb_eq in Hy. now rewrite Hy in Hi.
  - intros y Hy. rewrite filter_In. split; [tauto|].
    intros Hi. split; [exact Hi|]. apply Z.eqb_neq in Hy. now rewrite Hy.
Qed.

(** X8: each delete endpoint answers "not found" exactly for an id that
    is not in its table, and then changes nothing; for an id in the table
    it answers with that id, no row of the id is left, every other row of
    the table stays, and the other tables are untouched. *)
Theorem delete_endpoints :
  forall (db : Rev155147.database) (i : Z),
    (In i (map Rev155147.b_id (Rev155147.budgets db)) /\
     (exists db',
       Rev155147.delete_budget db i = (Rev155147.reply_deleted i, db') /\
       ~ In i (map Rev155147.b_id (Rev155147.budgets db')) /\
       (forall x, Rev155147.b_id x <> i ->
          (In x (Rev155147.budgets db') <-> In x (Rev155147.budgets db))) /\
       Rev155147.transactions db' = Rev155147.transactions db /\
       Rev155147.goals db' = Rev155147.goals db /\
       Rev155147.recurring db' = Rev155147.recurring db)
     \/
     ~ In i (map Rev155147.b_id (Rev155147.budgets db)) /\
     Rev155147.delete_budget db i
     = (Rev155147.reply_not_found "budget not found", db)) /\
    (In i (map Rev155147.g_id (Rev155147.goals db)) /\
     (exists db',
       Rev155147.delete_goal db i = (Rev155147.reply_deleted i, db') /\
       ~ In i (map Rev155147.g_id (Rev155147.goals db')) /\
       (forall x, Rev155147.g_id x <> i ->
          (In x (Rev155147.goals db') <-> In x (Rev155147.goals db))) /\
       Rev155147.transactions db' = Rev155147.transactions db /\
       Rev155147.budgets db' = Rev155147.budgets db /\
       Rev155147.recurring db' = Rev155147.recurring db)
     \/
     ~ In i (map Rev155147.g_id (Rev155147.goals db)) /\
     Rev155147.delete_goal db i
     = (Rev155147.reply_not_found "goal not found", db)) /\
    (In i (map Rev155147.r_id (Rev155147.recurring db)) /\
     (exists db',
       Rev155147.delete_recurring db i = (Rev155147.reply_deleted i, db') /\
       ~ In i (map Rev155147.r_id (Rev155147.recurring db')) /\
       (forall x, Rev155147.r_id x <> i ->
          (In x (Rev155147.recurring db') <-> In x (Rev155147.recurring db))) /\
       Rev155147.transactions db' = Rev155147.transactions db /\
       Rev155147.budgets db' = Rev155147.budgets db /\
       Rev155147.goals db' = Rev155147.goals db)
     \/
     ~ In i (map Rev155147.r_id (Rev155147.recurring db)) /\
     Rev155147.delete_recurring db i
     = (Rev155147.reply_not_found "recurring rule not found", db)).
Proof.
  intros db i. split; [|split].
  - unfold Rev155147.delete_budget.
    pose proof (delete_by_key _ Rev155147.b_id (Rev155147.budgets db) i) as H.
    destruct (find (fun b => Rev155147.b_id b =? i) (Rev155147.budgets db)) as [x|].
    + left. destruct H as (Hin & Hout & Hkeep). split; [exact Hin|].
      eexists. split; [reflexivity|]. repeat split; try assumption;
        apply (Hkeep _ ltac:(eassumption)).
    + right. now split.
  - unfold Rev155147.delete_goal.
    pose proof (delete_by_key _ Rev155147.g_id (Rev155147.goals db) i) as H.
    destruct (find (fun g => Rev155147.g_id g =? i) (Rev155147.goals db)) as [x|].
    + left. destruct H as (Hin & Hout & Hkeep). split; [exact Hin|].
      eexists. split; [reflexivity|]. repeat split; try assumption;
        apply (Hkeep _ ltac:(eassumption)).
    + right. now split.
  - unfold Rev155147.delete_recurring.
    pose proof (delete_by_key _ Rev155147.r_id (Rev155147.recurring db) i) as H.
    destruct (find (fun r => Rev155147.r_id r =? i) (Rev155147.recurring db)) as [x|].
    + left. destruct H as (Hin & Hout & Hkeep). split; [exact Hin|].
      eexists. split; [reflexivity|]. repeat split; try assumption;
        apply (Hkeep _ ltac:(eassumption)).
    + right. now split.
Qed.

(** X9: deleting what was just created restores the database: a budget
    reported as created, a goal, or a recurring rule, deleted by the id
    the create endpoint returned, leaves every table as it was before. *)
Theorem create_then_delete :
  forall (db : Rev155147.database) (today : date),
    (forall b id db1,
       Rev155147.create_budget db b = ((Rev155147.created, id), db1) ->
       Rev155147.delete_budget db1 id = (Rev155147.reply_deleted id, db)) /\
    (forall g, exists id db1,
       Rev155147.create_goal db g today = (Rev155147.reply_created id, db1) /\
       Rev155147.delete_goal db1 id = (Rev155147.reply_deleted id, db)) /\
    (forall r id db1,
       Rev155147.create_recurring db r today
       = (Rev155147.reply_created id, db1) ->
       Rev155147.delete_recurring db1 id = (Rev155147.reply_deleted id, db)).
Proof.
  intros db today. destruct db as [txs bs gs rs]. split; [|split].
  - intros b id db1. unfold Rev155147.create_budget.
    cbn [Rev155147.budgets Rev155147.set_budgets Rev155147.transactions
         Rev155147.goals Rev155147.recurring].
    destruct (Rev155147.find_budget (Rev155147.in_category b) bs); [discriminate|].
    cbn [Rev155147.b_id].
    set (nb := Rev155147.mkBudget _ _ _ _).
    intros H; injection H as <- <-.
    unfold Rev155147.delete_budget.
    cbn [Rev155147.set_budgets Rev155147.budgets Rev155147.transactions Rev155147.goals
         Rev155147.recurring].
    change (fresh_id (map Rev155147.b_id bs)) with (Rev155147.b_id nb).
    rewrite (find_snoc_fresh _ Rev155147.b_id bs nb eq_refl).
    unfold Rev155147.set_budgets.
    cbn [Rev155147.budgets Rev155147.transactions Rev155147.goals Rev155147.recurring].
    now rewrite (filter_snoc_fresh _ Rev155147.b_id bs nb eq_refl).
  - intros g. unfold Rev155147.create_goal.
    cbn [Rev155147.budgets Rev155147.set_goals Rev155147.transactions
         Rev155147.goals Rev155147.recurring Rev155147.g_id].
    set (ng := Rev155147.mkGoal _ _ _ _ _).
    eexists _, _. split; [reflexivity|].
    unfold Rev155147.delete_goal.
    cbn [Rev155147.set_goals Rev155147.budgets Rev155147.transactions Rev155147.goals
         Rev155147.recurring].
    change (fresh_id (map Rev155147.g_id gs)) with (Rev155147.g_id ng).
    rewrite (find_snoc_fresh _ Rev155147.g_id gs ng eq_refl).
    unfold Rev155147.set_goals.
    cbn [Rev155147.budgets Rev155147.transactions Rev155147.goals Rev155147.recurring].
    now rewrite (filter_snoc_fresh _ Rev155147.g_id gs ng eq_refl).
  - intros r id db1. unfold Rev155147.create_recurring.
    cbn [Rev155147.budgets Rev155147.set_recurring Rev155147.transactions
         Rev155147.goals Rev155147.recurring].
    destruct (match Rev155147.ri_next_run r with
              | Some d => Some d
              | None => date_add_days today 1
              end) as [nr|]; [|discriminate].
    cbn [Rev155147.r_id].
    set (rr := Rev155147.mkRecurring _ _ _ _ _ _ _).
    intros H; injection H as <- <-.
    unfold Rev155147.delete_recurring.
    cbn [Rev155147.set_recurring Rev155147.budgets Rev155147.transactions Rev155147.goals
         Rev155147.recurring].
    change (fresh_id (map Rev155147.r_id rs)) with (Rev155147.r_id rr).
    rewrite (find_snoc_fresh _ Rev155147.r_id rs rr eq_refl).
    unfold Rev155147.set_recurring.
    cbn [Rev155147.budgets Rev155147.transactions Rev155147.goals Rev155147.recurring].
    now rewrite (filter_snoc_fresh _ Rev155147.r_id rs rr eq_refl).
Qed.

Lemma create_then_delete_witness :
  exists id db1,
    Rev155147.create_recurring sample_db
      (Rev155147.mkRecurringIn (txt "net") (30 # 1) (txt "bills") true
         Rev155147.monthly None) sample_today
    = (Rev155147.reply_created id, db1) /\
    Rev155147.delete_recurring db1 id = (Rev155147.reply_deleted id, sample_db).
Proof.
  eexists _, _. split; [reflexivity|].
  apply (proj2 (proj2 (create_then_delete sample_db sample_today))
           (Rev155147.mkRecurringIn (txt "net") (30 # 1) (txt "bills") true
              Rev155147.monthly None)).
  reflexivity.
Defined.

(** ** A rule created without a date *)

Lemma run_rules_snoc_waiting (today : date)
    (rules : list Rev155147.RecurringTransaction)
    (r : Rev155147.RecurringTransaction) :
  Rev155147.is_due today r = false ->
  Rev155147.run_rules today (rules ++ [r])
  = match Rev155147.run_rules today rules with
    | Some (rs, txs, cs) => Some (rs ++ [r], txs, cs)
    | None => None
    end.
Proof.
  intros Hr. induction rules as [|x rules IH].
  - unfold Rev155147.is_due in Hr. simpl.
    destruct (Rev155147.r_next_run r) as [d|]; [|reflexivity].
    now rewrite Hr.
  - cbn [app Rev155147.run_rules]. rewrite IH.
    destruct (Rev155147.r_next_run x) as [d|].
    + destruct (date_leb d today).
      * destruct (Rev155147.advance (Rev155147.r_interval x) d); [|reflexivity].
        now destruct (Rev155147.run_rules today rules) as [[[rs txs] cs]|].
      * now destruct (Rev155147.run_rules today rules) as [[[rs txs] cs]|].
    + now destruct (Rev155147.run_rules today rules) as [[[rs txs] cs]|].
Qed.

Lemma tomorrow_spec (today : date) :
  valid_date today = true ->
  (today = mkdate 9999 12 31 /\ date_add_days today 1 = None) \/
  (exists d, date_add_days today 1 = Some d /\ valid_date d = true /\
             toordinal d = toordinal today + 1 /\ date_leb d today = false).
Proof.
  intros Hv. pose proof Hv as Hv0.
  apply valid_date_well_formed in Hv. destruct Hv as [Hw Hy].
  destruct (next_day_spec today Hw) as [Hw' Ho].
  unfold date_add_days. cbn [plus_days].
  destruct (year (next_day today) <=? MAXYEAR) eqn:E.
  - right. exists (next_day today). split; [reflexivity|].
    apply Z.leb_le in E.
    assert (Hy' : MINYEAR <= year (next_day today)).
    { unfold next_day.
      destruct (day today <? monthrange (year today) (month today));
        [|destruct (month today <? 12)]; cbn [year]; unfold MINYEAR in *; lia. }
    split; [apply valid_date_well_formed; split; [exact Hw' | lia]|].
    split; [exact Ho|].
    destruct (date_leb (next_day today) today) eqn:El; [|reflexivity].
    apply (toordinal_date_leb _ _ Hw' Hw) in El. lia.
  - left. split; [|reflexivity].
    apply Z.leb_gt in E. unfold next_day in E.
    destruct Hw as [Hm Hd]. unfold MAXYEAR, MINYEAR in *.
    destruct (day today <? monthrange (year today) (month today)) eqn:Ed;
      [cbn [year] in E; lia|].
    destruct (month today <? 12) eqn:Em; [cbn [year] in E; lia|].
    cbn [year] in E. apply Z.ltb_ge in Ed, Em.
    destruct today as [y m d]. cbn [year month day] in *.
    assert (m = 12) by lia. subst m.
    change (monthrange y 12) with 31 in *.
    f_equal; lia.
Qed.

(** X10: a recurring rule posted without a date is scheduled for the day
    after today, under an id no rule had; a pass of the scheduler on the
    day of its creation passes it over: the pass creates what it would have
    created without the rule, and raises when it would have raised. On
    9999-12-31 the post raises and stores nothing. *)
Theorem create_recurring_default :
  forall (db : Rev155147.database) (r : Rev155147.RecurringIn) (today : date),
    valid_date today = true ->
    Rev155147.ri_next_run r = None ->
    (today = mkdate 9999 12 31 /\
     Rev155147.create_recurring db r today = (Rev155147.reply_raised, db)) \/
    (exists id tomorrow db1,
       let rule := Rev155147.mkRecurring id (Rev155147.ri_description r)
                     (Rev155147.ri_amount r) (Rev155147.ri_category r)
                     (Rev155147.ri_is_expense r) (Rev155147.ri_interval r)
                     (Some tomorrow) in
       Rev155147.create_recurring db r today
       = (Rev155147.reply_created id, db1) /\
       valid_date tomorrow = true /\
       toordinal tomorrow = toordinal today + 1 /\
       ~ In id (map Rev155147.r_id (Rev155147.recurring db)) /\
       db1 = Rev155147.set_recurring db (Rev155147.recurring db ++ [rule]) /\
       Rev155147.run_due_recurrences db1 today
       = match Rev155147.run_due_recurrences db today with
         | (Rev155147.run_ok cs, db2) =>
             (Rev155147.run_ok cs,
              Rev155147.set_recurring db2 (Rev155147.recurring db2 ++ [rule]))
         | (Rev155147.run_raised, _) => (Rev155147.run_raised, db1)
         end).
Proof.
  intros db r today Hv Hn. unfold Rev155147.create_recurring. rewrite Hn.
  destruct (tomorrow_spec today Hv) as [[-> E] | (d & E & Hvd & Ho & Hl)];
    rewrite E.
  - left. now split.
  - right. eexists _, d, _. cbv zeta. split; [reflexivity|].
    cbn [Rev155147.r_id].
    split; [exact Hvd|]. split; [exact Ho|].
    split; [apply fresh_id_not_in|]. split; [reflexivity|].
    unfold Rev155147.run_due_recurrences.
    cbn [Rev155147.set_recurring Rev155147.recurring Rev155147.transactions
         Rev155147.budgets Rev155147.goals].
    rewrite run_rules_snoc_waiting.
    + destruct (Rev155147.run_rules today (Rev155147.recurring db))
        as [[[rs txs] cs]|]; reflexivity.
    + unfold Rev155147.is_due. cbn [Rev155147.r_next_run]. exact Hl.
Qed.

Lemma create_recurring_default_witness :
  valid_date sample_today = true /\
  exists id tomorrow db1,
    Rev155147.create_recurring sample_db
      (Rev155147.mkRecurringIn (txt "net") (30 # 1) (txt "bills") true
         Rev155147.monthly None) sample_today
    = (Rev155147.reply_created id, db1) /\
    toordinal tomorrow = toordinal sample_today + 1.
Proof.
  split; [reflexivity|].
  destruct (create_recurring_default sample_db
              (Rev155147.mkRecurringIn (txt "net") (30 # 1) (txt "bills") true
                 Rev155147.monthly None) sample_today eq_refl eq_refl)
    as [[H _] | (id & tomorrow & db1 & H & _ & Ho & _)].
  - discriminate H.
  - exists id, tomorrow, db1. split; [exact H | exact Ho].
Defined.

(** ** A second pass of the scheduler on the same day *)

Lemma run_rules_none_due (today : date)
    (rules : list Rev155147.RecurringTransaction) :
  Forall (fun r => Rev155147.is_due today r = false) rules ->
  Rev155147.run_rules today rules = Some (rules, [], []).
Proof.
  induction 1 as [|r rules Hr _ IH]; [reflexivity|].
  cbn [Rev155147.run_rules]. rewrite IH. unfold Rev155147.is_due in Hr.
  destruct (Rev155147.r_next_run r) as [d|]; [|reflexivity].
  now rewrite Hr.
Qed.

Lemma Forall2_right {A B : Type} (R : A -> B -> Prop) (P : A -> Prop)
    (Q : B -> Prop) (l : list A) (l' : list B) :
  Forall2 R l l' -> Forall P l ->
  (forall x y, P x -> R x y -> Q y) -> Forall Q l'.
Proof.
  intros H2 HP Himp. induction H2 as [|x y l l' Hxy _ IH]; [constructor|].
  inversion HP; subst. constructor; [now apply (Himp x) | now apply IH].
Qed.

(** X11: when no due rule has been due for a whole interval (7 days for a
    weekly rule, 28 for a monthly one), a second pass of the scheduler on
    the same day creates nothing and leaves the database as the first pass
    left it. *)
Theorem run_due_second_pass :
  forall (db : Rev155147.database) (today : date),
    valid_date today = true ->
    ValidRules (Rev155147.recurring db) ->
    year today < MAXYEAR ->
    (forall r d,
       In r (Rev155147.recurring db) ->
       Rev155147.r_next_run r = Some d -> date_leb d today = true ->
       toordinal today - toordinal d < interval_days (Rev155147.r_interval r)) ->
    exists (cs : list Rev155147.created_entry) (db' : Rev155147.database),
      Rev155147.run_due_recurrences db today = (Rev155147.run_ok cs, db') /\
      Rev155147.run_due_recurrences db' today = (Rev155147.run_ok [], db').
Proof.
  intros db today Hvt Hv Hy Hfresh.
  destruct (run_due_recurrences_spec db today Hv Hy)
    as (cs & db' & txs & Hrun & _ & _ & Hres & _).
  exists cs, db'. split; [exact Hrun|].
  assert (Hwait : Forall (fun r => Rev155147.is_due today r = false)
                         (Rev155147.recurring db')).
  { apply (Forall2_right (Rescheduled today)
             (fun r => In r (Rev155147.recurring db)) _ _ _ Hres).
    - apply Forall_forall. auto.
    - intros r r' Hin [Hsame Hnext]. unfold Rev155147.is_due.
      destruct (Rev155147.r_next_run r) as [d|] eqn:Ed.
      + destruct (date_leb d today) eqn:El.
        * destruct Hnext as (d' & -> & Hl).
          pose proof (Hv r d Hin Ed) as Hvd.
          destruct (Later_gap _ _ _ Hvd Hl) as (Hvd' & _ & Hgap).
          pose proof (Hfresh r d Hin Ed El) as Hlt.
          destruct (date_leb d' today) eqn:El'; [|reflexivity].
          apply valid_date_well_formed in Hvd', Hvt.
          apply (toordinal_date_leb d' today (proj1 Hvd') (proj1 Hvt)) in El'.
          lia.
        * now rewrite Hnext, El.
      + now rewrite Hnext. }
  unfold Rev155147.run_due_recurrences.
  rewrite (run_rules_none_due today _ Hwait).
  destruct db'; reflexivity.
Qed.

Lemma run_due_second_pass_witness :
  valid_date (mkdate 2025 9 9) = true /\
  exists cs db',
    Rev155147.run_due_recurrences sample_db_current (mkdate 2025 9 9)
    = (Rev155147.run_ok cs, db') /\
    Rev155147.run_due_recurrences db' (mkdate 2025 9 9)
    = (Rev155147.run_ok [], db').
Proof.
  split; [reflexivity|].
  apply (run_due_second_pass sample_db_current (mkdate 2025 9 9)).
  - reflexivity.
  - intros r d [<-|[<-|[]]] E; injection E as <-; reflexivity.
  - reflexivity.
  - intros r d [<-|[<-|[]]] E; injection E as <-; intros _; reflexivity.
Defined.

(** ** When a pass of the scheduler fails *)

Lemma advance_raises (i : Rev155147.RecurrenceIntervalEnum) (d : date) :
  valid_date d = true ->
  (Rev155147.advance i d = None <->
   year d = MAXYEAR /\ month d = 12 /\ (i = Rev155147.weekly -> 25 <= day d)).
Proof.
  intros Hv. pose proof Hv as Hv0.
  apply valid_date_well_formed in Hv. destruct Hv as [Hw Hr].
  destruct i.
  - unfold Rev155147.advance. cbv zeta.
    set (y := year d + (if month d =? 12 then 1 else 0)).
    set (m := if month d =? 12 then 1 else month d + 1).
    destruct Hw as [Hm Hd].
    assert (Hm' : 1 <= m <= 12).
    { unfold m. destruct (month d =? 12) eqn:E; [lia|]. apply Z.eqb_neq in E. lia. }
    pose proof (monthrange_bounds y m Hm') as Hb.
    assert (Hwf : well_formed (mkdate y m (Z.min (day d) (monthrange y m)))).
    { unfold well_formed. cbn [year month day]. lia. }
    unfold new_date.
    destruct (valid_date (mkdate y m (Z.min (day d) (monthrange y m)))) eqn:E.
    + split; [discriminate|]. intros (Hy & Hmm & _). exfalso.
      apply valid_date_well_formed in E. destruct E as [_ E].
      cbn [year] in E. unfold y in E. rewrite Hmm in E. simpl in E.
      unfold MAXYEAR in *. lia.
    + split; [|reflexivity]. intros _.
      assert (Hy : ~ (MINYEAR <= y <= MAXYEAR)).
      { intros Hy. assert (valid_date (mkdate y m (Z.min (day d) (monthrange y m))) = true)
          by (apply valid_date_well_formed; split; [exact Hwf | exact Hy]).
        congruence. }
      unfold y, MINYEAR, MAXYEAR in *.
      destruct (month d =? 12) eqn:E12.
      * apply Z.eqb_eq in E12. split; [lia|]. split; [lia|]. discriminate.
      * exfalso. lia.
  - cbn [Rev155147.advance].
    destruct (plus_days_spec 7 d Hw) as [Hw' Ho].
    pose proof (plus_days_year 7 d Hw ltac:(lia)) as Hyr.
    pose proof (toordinal_bounds _ Hw') as B.
    pose proof (days_before_year_succ 9999) as S1.
    change (year_length 9999) with 365 in S1.
    change (9999 + 1) with 10000 in S1.
    unfold date_add_days. unfold MINYEAR, MAXYEAR in *.
    destruct Hw as [Hm Hd].
    assert (Hlate : year d = 9999 ->
                    (358 < days_before_month 9999 (month d) + day d <->
                     month d = 12 /\ 25 <= day d)).
    { intros Hy. rewrite Hy in Hd. revert Hd.
      each_month (month d) Hm; month_tables;
        change (isleap 9999) with false; cbv iota; lia. }
    destruct (year (plus_days 7 d) <=? 9999) eqn:E.
    + split; [discriminate|]. intros (Hy & Hmm & Hday). exfalso.
      apply Z.leb_le in E. specialize (Hday eq_refl).
      assert (Hyr' : year (plus_days 7 d) = 9999) by lia.
      rewrite Hyr' in B. change (9999 + 1) with 10000 in B.
      unfold toordinal in Ho at 2. rewrite Hy in Ho.
      pose proof (proj2 (Hlate Hy) (conj Hmm Hday)). lia.
    + split; [|reflexivity]. intros _. apply Z.leb_gt in E.
      assert (Hy : year d = 9999) by lia.
      assert (Hyr' : year (plus_days 7 d) = 10000) by lia.
      rewrite Hyr' in B.
      unfold toordinal in Ho at 2. rewrite Hy in Ho.
      destruct (proj1 (Hlate Hy) ltac:(lia)) as [Hmm Hday].
      split; [exact Hy|]. split; [exact Hmm|]. intros _. exact Hday.
Qed.

Lemma run_rules_raises (today : date)
    (rules : list Rev155147.RecurringTransaction) :
  Rev155147.run_rules today rules = None <->
  exists r d, In r rules /\ Rev155147.r_next_run r = Some d /\
              date_leb d today = true /\
              Rev155147.advance (Rev155147.r_interval r) d = None.
Proof.
  induction rules as [|x rules IH]; cbn [Rev155147.run_rules].
  - split; [discriminate | intros (r & d & [] & _)].
  - assert (Hrest : (exists r d, In r rules /\ Rev155147.r_next_run r = Some d /\
                       date_leb d today = true /\
                       Rev155147.advance (Rev155147.r_interval r) d = None) ->
                    exists r d, In r (x :: rules) /\
                       Rev155147.r_next_run r = Some d /\
                       date_leb d today = true /\
                       Rev155147.advance (Rev155147.r_interval r) d = None).
    { intros (r & d & Hin & H). exists r, d. split; [now right | exact H]. }
    destruct (Rev155147.r_next_run x) as [dx|] eqn:Ex.
    + destruct (date_leb dx today) eqn:El.
      * destruct (Rev155147.advance (Rev155147.r_interval x) dx) as [d'|] eqn:Ea.
        -- destruct (Rev155147.run_rules today rules) as [[[rs txs] cs]|].
           ++ split; [discriminate|].
              intros (r & d & [<-|Hin] & Hn & Hl & Had).
              ** congruence.
              ** assert (Hc : Some (rs, txs, cs) = None)
                   by (apply IH; now exists r, d).
                 discriminate Hc.
           ++ split; [|reflexivity]. intros _. apply Hrest. now apply IH.
        -- split; [|reflexivity]. intros _. exists x, dx.
           split; [now left|]. auto.
      * destruct (Rev155147.run_rules today rules) as [[[rs txs] cs]|].
        -- split; [discriminate|].
           intros (r & d & [<-|Hin] & Hn & Hl & Had); [congruence|].
           assert (Hc : Some (rs, txs, cs) = None)
             by (apply IH; now exists r, d).
           discriminate Hc.
        -- split; [|reflexivity]. intros _. apply Hrest. now apply IH.
    + destruct (Rev155147.run_rules today rules) as [[[rs txs] cs]|].
      * split; [discriminate|].
        intros (r & d & [<-|Hin] & Hn & Hl & Had); [congruence|].
        assert (Hc : Some (rs, txs, cs) = None)
          by (apply IH; now exists r, d).
        discriminate Hc.
      * split; [|reflexivity]. intros _. apply Hrest. now apply IH.
Qed.

(** X12: over rules with valid dates, a pass of the scheduler raises
    exactly when some due rule is dated in December 9999 and, if it is
    weekly, on the 25th or later; a pass that raises stores nothing, not
    even the transactions of the rules it had handled before. *)
Theorem run_due_all_or_nothing :
  forall (db : Rev155147.database) (today : date),
    ValidRules (Rev155147.recurring db) ->
    (fst (Rev155147.run_due_recurrences db today) = Rev155147.run_raised <->
     exists r d,
       In r (Rev155147.recurring db) /\
       Rev155147.r_next_run r = Some d /\ date_leb d today = true /\
       year d = MAXYEAR /\ month d = 12 /\
       (Rev155147.r_interval r = Rev155147.weekly -> 25 <= day d)) /\
    (fst (Rev155147.run_due_recurrences db today) = Rev155147.run_raised ->
     snd (Rev155147.run_due_recurrences db today) = db).
Proof.
  intros db today Hv.
  assert (Hiff : Rev155147.run_rules today (Rev155147.recurring db) = None <->
                 exists r d,
                   In r (Rev155147.recurring db) /\
                   Rev155147.r_next_run r = Some d /\ date_leb d today = true /\
                   year d = MAXYEAR /\ month d = 12 /\
                   (Rev155147.r_interval r = Rev155147.weekly -> 25 <= day d)).
  { rewrite run_rules_raises. split.
    - intros (r & d & Hin & Hn & Hl & Ha). exists r, d.
      apply (advance_raises _ _ (Hv r d Hin Hn)) in Ha. tauto.
    - intros (r & d & Hin & Hn & Hl & Ha). exists r, d.
      repeat split; try assumption.
      apply (advance_raises _ _ (Hv r d Hin Hn)). tauto. }
  unfold Rev155147.run_due_recurrences.
  destruct (Rev155147.run_rules today (Rev155147.recurring db))
    as [[[rs txs] cs]|]; cbn [fst snd].
  - split; [|discriminate]. split; [discriminate|].
    intros H. apply Hiff in H. discriminate.
  - split; [|reflexivity]. split; [intros _; now apply Hiff | reflexivity].
Qed.

Lemma run_due_all_or_nothing_witness :
  ValidRules (Rev155147.recurring sample_db_last_days) /\
  Rev155147.run_due_recurrences sample_db_last_days (mkdate 9999 12 30)
  = (Rev155147.run_raised, sample_db_last_days).
Proof.
  assert (Hv : ValidRules (Rev155147.recurring sample_db_last_days)).
  { intros r d [<-|[<-|[]]] E; injection E as <-; reflexivity. }
  split; [exact Hv|].
  destruct (run_due_all_or_nothing sample_db_last_days (mkdate 9999 12 30) Hv)
    as [[_ Hraise] Hsame].
  assert (Hr : fst (Rev155147.run_due_recurrences sample_db_last_days
                      (mkdate 9999 12 30)) = Rev155147.run_raised).
  { apply Hraise.
    exists (Rev155147.mkRecurring 2 (txt "gym") (10 # 1) (txt "sport") true
              Rev155147.weekly (Some (mkdate 9999 12 26))), (mkdate 9999 12 26).
    split; [right; left; reflexivity|].
    repeat split; try reflexivity. intros _. discriminate. }
  specialize (Hsame Hr).
  destruct (Rev155147.run_due_recurrences sample_db_last_days (mkdate 9999 12 30))
    as [res db']. cbn [fst snd] in Hr, Hsame. now subst.
Defined.

(** ** The months of the trends *)

Lemma roll_back_spec (n : nat) :
  forall y m : Z,
    1 - m <= Z.of_nat n -> m <= 12 ->
    Rev155147.roll_back n y m = label_at (12 * y + (m - 1)).
Proof.
  assert (Hbase : forall y m, 1 <= m <= 12 -> (y, m) = label_at (12 * y + (m - 1))).
  { intros y m Hm. unfold label_at. f_equal; Z.div_mod_to_equations; lia. }
  induction n as [|n IH]; intros y m Hn Hm; cbn [Rev155147.roll_back].
  - apply Hbase. lia.
  - destruct (m <=? 0) eqn:E.
    + apply Z.leb_le in E. rewrite IH by lia. f_equal. lia.
    + apply Z.leb_gt in E. apply Hbase. lia.
Qed.

Lemma month_back_spec (y m : Z) :
  m <= 12 -> Rev155147.month_back y m = label_at (12 * y + (m - 1)).
Proof.
  intros Hm. unfold Rev155147.month_back. apply roll_back_spec; lia.
Qed.

Lemma month_rows_raises (idx : Z) (rows : list Rev155147.Transaction) :
  idx <= 12 * MAXYEAR + 11 ->
  (Rev155147.month_rows (fst (label_at idx)) (snd (label_at idx)) rows = None
   <-> idx < 12).
Proof.
  intros Hmax. unfold label_at. cbn [fst snd].
  set (y := idx / 12). set (m := idx mod 12 + 1).
  assert (Hm : 1 <= m <= 12) by (unfold m; Z.div_mod_to_equations; lia).
  pose proof (monthrange_bounds y m Hm) as Hb.
  assert (Hy : MINYEAR <= y <= MAXYEAR <-> 12 <= idx).
  { unfold y, MINYEAR, MAXYEAR in *. Z.div_mod_to_equations. lia. }
  unfold Rev155147.month_rows, new_datetime, new_date.
  destruct (valid_date (mkdate y m 1)) eqn:E1.
  - apply valid_date_well_formed in E1. destruct E1 as [_ E1]. cbn [year] in E1.
    assert (E2 : valid_date (mkdate y m (monthrange y m)) = true).
    { apply valid_date_well_formed. unfold well_formed. cbn [year month day].
      repeat split; lia. }
    rewrite E2. split; [discriminate|]. intros H. apply Hy in E1. lia.
  - split; [|reflexivity]. intros _.
    destruct (Z_lt_le_dec idx 12) as [L|L]; [exact L|]. exfalso.
    assert (valid_date (mkdate y m 1) = true).
    { apply valid_date_well_formed. unfold well_formed. cbn [year month day].
      apply Hy in L. repeat split; lia. }
    congruence.
Qed.

Lemma trend_loop_spec (today : date) (rows : list Rev155147.Transaction)
    (ago : list Z) :
  valid_date today = true ->
  Forall (fun i => 0 <= i) ago ->
  match Rev155147.trend_loop today rows ago with
  | None => exists i, In i ago /\ month_index today - i < 12
  | Some (ls, incs, exps) =>
      ls = map (fun i => label_at (month_index today - i)) ago /\
      List.length incs = List.length ago /\
      List.length exps = List.length ago /\
      Forall (fun i => 12 <= month_index today - i) ago
  end.
Proof.
  intros Hv. apply valid_date_well_formed in Hv.
  destruct Hv as [[Hm _] Hy]. unfold MINYEAR, MAXYEAR in Hy.
  induction 1 as [|i ago Hi _ IH]; cbn [Rev155147.trend_loop].
  - repeat split. constructor.
  - rewrite month_back_spec by lia.
    replace (12 * year today + (month today - i - 1))
      with (month_index today - i) by (unfold month_index; lia).
    assert (Hmax : month_index today - i <= 12 * MAXYEAR + 11)
      by (unfold month_index, MAXYEAR; lia).
    pose proof (month_rows_raises (month_index today - i) rows Hmax) as Hr.
    destruct (label_at (month_index today - i)) as [y m] eqn:El.
    cbn [fst snd] in Hr.
    destruct (Rev155147.month_rows y m rows) as [rs|].
    + destruct (Rev155147.trend_loop today rows ago) as [[[ls incs] exps]|].
      * destruct IH as (-> & Hli & Hle & Hall). cbn [map List.length].
        rewrite El, Hli, Hle. repeat split.
        constructor; [|exact Hall].
        destruct (Z_lt_le_dec (month_index today - i) 12) as [L|L]; [|exact L].
        apply Hr in L. discriminate.
      * destruct IH as (j & Hj & Hlt). exists j. split; [now right | exact Hlt].
    + exists i. split; [now left|]. now apply Hr.
Qed.

Lemma range_down_succ (n : nat) :
  range_down (Z.of_nat (S n)) = Z.of_nat n :: range_down (Z.of_nat n).
Proof.
  unfold range_down. rewrite !Nat2Z.id, seq_S, rev_app_distr. reflexivity.
Qed.

Lemma range_down_nat (k : nat) :
  List.length (range_down (Z.of_nat k)) = k /\
  Forall (fun i => 0 <= i <= Z.of_nat k - 1) (range_down (Z.of_nat k)) /\
  forall j, (j < k)%nat ->
            nth_error (range_down (Z.of_nat k)) j
            = Some (Z.of_nat k - 1 - Z.of_nat j).
Proof.
  induction k as [|k (Hl & Hall & Hnth)].
  - unfold range_down. simpl. repeat split; [constructor | lia].
  - rewrite range_down_succ. cbn [List.length]. rewrite Hl. repeat split.
    + constructor; [lia|]. eapply Forall_impl; [|exact Hall].
      cbv beta. intros. lia.
    + intros [|j] Hj; cbn [nth_error]; [f_equal; lia|].
      rewrite Hnth by lia. f_equal. lia.
Qed.

Lemma range_down_spec (n : Z) :
  List.length (range_down n) = Z.to_nat n /\
  Forall (fun i => 0 <= i <= n - 1) (range_down n) /\
  (0 < n -> In (n - 1) (range_down n)) /\
  forall k, (k < Z.to_nat n)%nat ->
            nth_error (range_down n) k = Some (n - 1 - Z.of_nat k).
Proof.
  destruct (Z_le_gt_dec n 0) as [L|L].
  - unfold range_down. replace (Z.to_nat n) with 0%nat by lia. simpl.
    repeat split; [constructor | lia | lia].
  - assert (E : n = Z.of_nat (Z.to_nat n)) by lia.
    set (k := Z.to_nat n) in *. clearbody k. subst n.
    destruct (range_down_nat k) as (Hl & Hall & Hnth).
    split; [exact Hl|]. split; [exact Hall|]. split; [|exact Hnth].
    intros _. apply nth_error_In with (n := 0%nat).
    rewrite Hnth by lia. f_equal. lia.
Qed.

(** X13: on a day of the calendar, the trends raise exactly when the
    earliest month they look at, the first of the [months] months ending
    with the current one or the month before the current one, lies before
    year 1; otherwise the three series have one entry per month, none for
    [months] at most 0, and the labels are the consecutive months up to the
    current one. *)
Theorem get_trends_window :
  forall (db : Rev155147.database) (today : date) (months : Z),
    valid_date today = true ->
    (Rev155147.get_trends db today months = None <->
     month_index today - Z.max (months - 1) 1 < 12) /\
    (forall t,
       Rev155147.get_trends db today months = Some t ->
       List.length (Rev155147.labels t) = Z.to_nat months /\
       List.length (Rev155147.income_series t) = Z.to_nat months /\
       List.length (Rev155147.expense_series t) = Z.to_nat months /\
       forall k, (k < Z.to_nat months)%nat ->
         nth_error (Rev155147.labels t) k
         = Some (label_at (month_index today - (months - 1 - Z.of_nat k)))).
Proof.
  intros db today months Hv.
  destruct (range_down_spec months) as (Hlen & Hrange & Hfirst & Hnth).
  assert (Hpos : Forall (fun i => 0 <= i) (range_down months)).
  { eapply Forall_impl; [|exact Hrange]. cbv beta. intros. lia. }
  pose proof (trend_loop_spec today (Rev155147.transactions db)
                (range_down months) Hv Hpos) as Hloop.
  pose proof Hv as Hv0. apply valid_date_well_formed in Hv0.
  destruct Hv0 as [[Hm _] Hy]. unfold MINYEAR, MAXYEAR in Hy.
  assert (Hlast : (if month today - 1 =? 0 then 12 else month today - 1)
                  = snd (label_at (month_index today - 1)) /\
                  (if 1 <? month today then year today else year today - 1)
                  = fst (label_at (month_index today - 1))).
  { unfold label_at, month_index. cbn [fst snd].
    destruct (month today - 1 =? 0) eqn:E0; destruct (1 <? month today) eqn:E1;
      rewrite ?Z.eqb_eq, ?Z.eqb_neq, ?Z.ltb_lt, ?Z.ltb_ge in *;
      split; Z.div_mod_to_equations; lia. }
  destruct Hlast as [Hlm Hly].
  assert (Hmax : month_index today - 1 <= 12 * MAXYEAR + 11)
    by (unfold month_index, MAXYEAR; lia).
  pose proof (month_rows_raises (month_index today - 1)
                (Rev155147.transactions db) Hmax) as Hprev.
  unfold Rev155147.get_trends. rewrite Hlm, Hly.
  destruct (Rev155147.trend_loop today (Rev155147.transactions db)
              (range_down months)) as [[[ls incs] exps]|].
  - destruct Hloop as (-> & Hli & Hle & Hall).
    destruct (Rev155147.month_rows (fst (label_at (month_index today - 1)))
                (snd (label_at (month_index today - 1)))
                (Rev155147.transactions db)) as [rs|].
    + split.
      * split; [discriminate|]. intros Hlt. exfalso.
        assert (Hp : ~ month_index today - 1 < 12).
        { intros Hc. apply Hprev in Hc. discriminate. }
        destruct (Z_le_gt_dec months 1) as [L|L]; [lia|].
        rewrite Forall_forall in Hall.
        specialize (Hall _ (Hfirst ltac:(lia))). cbv beta in Hall. lia.
      * intros t Ht; injection Ht as <-.
        cbn [Rev155147.labels Rev155147.income_series Rev155147.expense_series].
        rewrite length_map, Hli, Hle, Hlen. repeat split.
        intros k Hk. rewrite nth_error_map, (Hnth k Hk). reflexivity.
    + split; [|discriminate]. split; [|reflexivity]. intros _.
      assert (month_index today - 1 < 12) by now apply Hprev. lia.
  - split; [|discriminate]. split; [|reflexivity]. intros _.
    destruct Hloop as (i & Hi & Hlt).
    rewrite Forall_forall in Hrange. specialize (Hrange i Hi). cbv beta in Hrange.
    lia.
Qed.

Lemma get_trends_window_witness :
  valid_date (mkdate 2025 2 9) = true /\
  exists t,
    Rev155147.get_trends sample_db (mkdate 2025 2 9) 3 = Some t /\
    Rev155147.labels t = [(2024, 12); (2025, 1); (2025, 2)].
Proof.
  split; [reflexivity|].
  destruct (Rev155147.get_trends sample_db (mkdate 2025 2 9) 3) as [t|] eqn:Ht;
    [|vm_compute in Ht; discriminate Ht].
  exists t. split; [reflexivity|].
  destruct (get_trends_window sample_db (mkdate 2025 2 9) 3 eq_refl)
    as [_ H].
  destruct (H t Ht) as (Hl & _ & _ & Hnth).
  pose proof (Hnth 0%nat ltac:(simpl; lia)) as H0.
  pose proof (Hnth 1%nat ltac:(simpl; lia)) as H1.
  pose proof (Hnth 2%nat ltac:(simpl; lia)) as H2.
  destruct (Rev155147.labels t) as [|a [|b [|c [|e l]]]]; try discriminate Hl.
  cbn [nth_error] in H0, H1, H2.
  injection H0 as ->. injection H1 as ->. injection H2 as ->.
  reflexivity.
Defined.

(** ** The rows of a month of the trends *)

Lemma filter_filter {A : Type} (p q : A -> bool) (l : list A) :
  filter p (filter q l) = filter (fun x => p x && q x) l.
Proof.
  induction l as [|x l IH]; simpl; [reflexivity|].
  destruct (q x); simpl; [|now rewrite andb_false_r].
  rewrite andb_true_r. destruct (p x); now rewrite IH.
Qed.






(** ** The breakdown by category *)






(** * The later revision: scheduler, edit and trends *)

Lemma month_first_leb (ts : datetime) :
  proper_timestamp ts ->
  datetime_leb (midnight (mkdate (year (dt_date ts)) (month (dt_date ts)) 1)) ts
  = true.
Proof.
  intros [Hd Ht]. apply datetime_leb_le. unfold datetime_le, midnight.
  cbn [dt_date dt_time year month day]. lia.
Qed.

Lemma datetime_leb_trans (a b c : datetime) :
  datetime_leb a b = true -> datetime_leb b c = true -> datetime_leb a c = true.
Proof.
  rewrite !datetime_leb_le. apply datetime_le_trans.
Qed.

Lemma rev235636_reschedule_raises (r : Rev235636.Recurring) :
  Rev235636.reschedule r = None <-> Rev235636.r_interval r = txt "weekly".
Proof.
  unfold Rev235636.reschedule.
  destruct (text_eqb (Rev235636.r_interval r) (txt "monthly")) eqn:Em.
  - apply text_eqb_eq in Em. rewrite Em. split; discriminate.
  - destruct (text_eqb (Rev235636.r_interval r) (txt "weekly")) eqn:Ew.
    + apply text_eqb_eq in Ew. now split.
    + split; [discriminate|]. intros H. apply text_eqb_eq in H. congruence.
Qed.

Lemma rev235636_reschedule_settles (r r' : Rev235636.Recurring) (now : datetime) :
  proper_timestamp (Rev235636.r_next_run r) ->
  datetime_leb (Rev235636.r_next_run r) now = true ->
  Rev235636.reschedule r = Some r' ->
  datetime_leb (Rev235636.r_next_run r') now = true /\
  Rev235636.reschedule r' = Some r'.
Proof.
  intros Hp Hdue. unfold Rev235636.reschedule.
  destruct (text_eqb (Rev235636.r_interval r) (txt "monthly")) eqn:Em.
  - intros H; injection H as <-.
    cbn [Rev235636.set_next_run Rev235636.r_next_run Rev235636.r_interval].
    rewrite Em. split; [|reflexivity].
    exact (datetime_leb_trans _ _ _ (month_first_leb _ Hp) Hdue).
  - destruct (text_eqb (Rev235636.r_interval r) (txt "weekly")) eqn:Ew;
      [discriminate|].
    intros H; injection H as <-. rewrite Em, Ew. now split.
Qed.

Lemma rev235636_run_rules_spec (now : datetime) (recs : list Rev235636.Recurring) :
  forall rs txs,
    Rev235636.run_rules now recs = Some (rs, txs) ->
    Forall2 (fun r r' =>
               if datetime_leb (Rev235636.r_next_run r) now
               then Rev235636.reschedule r = Some r' else r' = r) recs rs /\
    List.length txs
    = List.length (filter (fun r => datetime_leb (Rev235636.r_next_run r) now) recs) /\
    Forall (fun mk : Rev235636.pending =>
              forall id, Rev235636.tx_ts (mk id) = now /\
                         Rev235636.tx_is_expense (mk id) = true) txs.
Proof.
  induction recs as [|r recs IH]; cbn [Rev235636.run_rules filter]; intros rs txs.
  - intros H; injection H as <- <-. repeat split; constructor.
  - destruct (datetime_leb (Rev235636.r_next_run r) now) eqn:Ed.
    + destruct (Rev235636.reschedule r) as [r'|] eqn:Er; [|discriminate].
      destruct (Rev235636.run_rules now recs) as [[rs0 txs0]|]; [|discriminate].
      destruct (IH _ _ eq_refl) as (H2 & Hl & Ha).
      intros H; injection H as <- <-. cbn [List.length]. rewrite Hl.
      repeat split.
      * constructor; [now rewrite Ed | exact H2].
      * constructor; [|exact Ha]. intros id. now split.
    + destruct (Rev235636.run_rules now recs) as [[rs0 txs0]|]; [|discriminate].
      destruct (IH _ _ eq_refl) as (H2 & Hl & Ha).
      intros H; injection H as <- <-. repeat split; try assumption.
      constructor; [now rewrite Ed | exact H2].
Qed.

Lemma rev235636_run_rules_raises (now : datetime)
    (recs : list Rev235636.Recurring) :
  Rev235636.run_rules now recs = None <->
  exists r, In r recs /\ datetime_leb (Rev235636.r_next_run r) now = true /\
            Rev235636.r_interval r = txt "weekly".
Proof.
  induction recs as [|x recs IH]; cbn [Rev235636.run_rules].
  - split; [discriminate | intros (r & [] & _)].
  - destruct (datetime_leb (Rev235636.r_next_run x) now) eqn:Ed.
    + destruct (Rev235636.reschedule x) as [x'|] eqn:Er.
      * destruct (Rev235636.run_rules now recs) as [[rs txs]|].
        -- split; [discriminate|]. intros (r & [<-|Hin] & Hd & Hw).
           ++ apply rev235636_reschedule_raises in Hw. congruence.
           ++ assert (Hc : Some (rs, txs) = None) by (apply IH; now exists r).
              discriminate Hc.
        -- split; [|reflexivity]. intros _.
           destruct (proj1 IH eq_refl) as (r & Hin & H). exists r.
           split; [now right | exact H].
      * split; [|reflexivity]. intros _. exists x.
        split; [now left|]. split; [exact Ed|].
        now apply rev235636_reschedule_raises.
    + destruct (Rev235636.run_rules now recs) as [[rs txs]|].
      * split; [discriminate|]. intros (r & [<-|Hin] & Hd & Hw); [congruence|].
        assert (Hc : Some (rs, txs) = None) by (apply IH; now exists r).
        discriminate Hc.
      * split; [|reflexivity]. intros _.
        destruct (proj1 IH eq_refl) as (r & Hin & H). exists r.
        split; [now right | exact H].
Qed.

Lemma rev235636_run_rules_settled (now : datetime)
    (rs : list Rev235636.Recurring) :
  Forall (fun r => datetime_leb (Rev235636.r_next_run r) now = true ->
                   Rev235636.reschedule r = Some r) rs ->
  exists txs,
    Rev235636.run_rules now rs = Some (rs, txs) /\
    List.length txs
    = List.length (filter (fun r => datetime_leb (Rev235636.r_next_run r) now) rs).
Proof.
  induction 1 as [|r rs Hr _ (txs & IH & Hl)]; cbn [Rev235636.run_rules filter].
  - now exists [].
  - rewrite IH. destruct (datetime_leb (Rev235636.r_next_run r) now).
    + rewrite (Hr eq_refl). eexists. split; [reflexivity|].
      cbn [List.length]. now rewrite Hl.
    + now exists txs.
Qed.

Lemma rev235636_insert_all_spec (new : list Rev235636.pending) :
  forall rows : list Rev235636.Transaction,
  exists txs,
    Rev235636.insert_all rows new = rows ++ txs /\
    Forall2 (fun (mk : Rev235636.pending) tx => exists id, tx = mk id) new txs.
Proof.
  unfold Rev235636.insert_all.
  induction new as [|mk new IH]; intros rows; cbn [fold_left].
  - exists []. rewrite app_nil_r. split; [reflexivity | constructor].
  - destruct (IH (rows ++ [mk (fresh_id (map Rev235636.tx_id rows))]))
      as (txs & -> & H2).
    exists (mk (fresh_id (map Rev235636.tx_id rows)) :: txs).
    rewrite <- app_assoc. split; [reflexivity|].
    constructor; [now eexists | exact H2].
Qed.

(** X16: in the later revision a pass of the scheduler raises, storing
    nothing, exactly when a due rule is weekly; otherwise it adds one
    expense dated at the time of the pass for every due rule, and every
    rule that was due is still due afterwards: a second pass at the same
    time adds as many transactions again and leaves the rules as the first
    pass left them. *)
Theorem rev235636_run_due_repeats :
  forall (db : Rev235636.database) (now : datetime),
    (forall r, In r (Rev235636.recurring db) ->
               proper_timestamp (Rev235636.r_next_run r)) ->
    (fst (Rev235636.run_due db now) = None <->
     exists r, In r (Rev235636.recurring db) /\
               datetime_leb (Rev235636.r_next_run r) now = true /\
               Rev235636.r_interval r = txt "weekly") /\
    (fst (Rev235636.run_due db now) = None ->
     snd (Rev235636.run_due db now) = db) /\
    forall created db',
      Rev235636.run_due db now = (Some created, db') ->
      Rev235636.transactions db' = Rev235636.transactions db ++ created /\
      List.length created
      = List.length (filter (fun r => datetime_leb (Rev235636.r_next_run r) now)
                            (Rev235636.recurring db)) /\
      Forall (fun tx => Rev235636.tx_ts tx = now /\
                        Rev235636.tx_is_expense tx = true) created /\
      exists created2 db2,
        Rev235636.run_due db' now = (Some created2, db2) /\
        List.length created2 = List.length created /\
        Rev235636.recurring db2 = Rev235636.recurring db'.
Proof.
  intros db now Hp.
  pose proof (rev235636_run_rules_raises now (Rev235636.recurring db)) as Hraise.
  unfold Rev235636.run_due.
  destruct (Rev235636.run_rules now (Rev235636.recurring db)) as [[rs txs]|] eqn:Er;
    cbn [fst snd].
  - split; [|split; [discriminate|]].
    { split; [discriminate|]. intros H. apply Hraise in H. discriminate. }
    intros created db' H; injection H as <- <-.
    cbn [Rev235636.transactions Rev235636.recurring].
    destruct (rev235636_run_rules_spec now _ _ _ Er) as (H2 & Hl & Ha).
    destruct (rev235636_insert_all_spec txs (Rev235636.transactions db))
      as (new & Hins & Hnew).
    rewrite Hins, skipn_app, skipn_all, Nat.sub_diag. cbn [skipn app].
    assert (Hlen : List.length new = List.length txs).
    { symmetry. clear -Hnew. induction Hnew; simpl; congruence. }
    split; [reflexivity|]. split; [congruence|]. split.
    { clear -Ha Hnew. induction Hnew as [|mk tx txs new (id & ->) _ IH];
        [constructor|].
      inversion Ha; subst. constructor; [auto | now apply IH]. }
    assert (Hset : Forall (fun r => datetime_leb (Rev235636.r_next_run r) now = true ->
                                    Rev235636.reschedule r = Some r) rs /\
                   List.length (filter (fun r => datetime_leb (Rev235636.r_next_run r) now) rs)
                   = List.length (filter (fun r => datetime_leb (Rev235636.r_next_run r) now)
                                         (Rev235636.recurring db))).
    { clear -H2 Hp. induction H2 as [|r r' recs rs Hr _ IH]; [split; [constructor | reflexivity]|].
      destruct IH as [IHf IHl]; [intros x Hx; apply Hp; now right|].
      cbn [filter].
      destruct (datetime_leb (Rev235636.r_next_run r) now) eqn:Ed.
      - destruct (rev235636_reschedule_settles r r' now
                    (Hp r (or_introl eq_refl)) Ed Hr) as [Hd' Hs'].
        rewrite Hd'. cbn [List.length]. rewrite IHl. split; [|reflexivity].
        constructor; [intros _; exact Hs' | exact IHf].
      - subst r'. rewrite Ed. split; [|exact IHl].
        constructor; [intros H; congruence | exact IHf]. }
    destruct Hset as [Hfix Hcount].
    destruct (rev235636_run_rules_settled now rs Hfix) as (txs2 & Er2 & Hl2).
    rewrite Er2.
    destruct (rev235636_insert_all_spec txs2
                (Rev235636.transactions db ++ new)) as (new2 & Hins2 & Hnew2).
    eexists _, _. split; [reflexivity|].
    cbn [Rev235636.recurring]. split; [|reflexivity].
    rewrite Hins2, skipn_app, skipn_all, Nat.sub_diag. cbn [skipn app].
    assert (Hlen2 : List.length new2 = List.length txs2).
    { symmetry. clear -Hnew2. induction Hnew2; simpl; congruence. }
    congruence.
  - split; [|split; [reflexivity | discriminate]].
    split; [intros _; now apply Hraise | reflexivity].
Qed.

Lemma rev235636_run_due_repeats_witness :
  (forall r, In r (Rev235636.recurring sample_db_235636_rules) ->
             proper_timestamp (Rev235636.r_next_run r)) /\
  exists created db',
    Rev235636.run_due sample_db_235636_rules sample_now = (Some created, db') /\
    exists created2 db2,
      Rev235636.run_due db' sample_now = (Some created2, db2) /\
      List.length created2 = List.length created.
Proof.
  assert (Hp : forall r, In r (Rev235636.recurring sample_db_235636_rules) ->
                         proper_timestamp (Rev235636.r_next_run r)).
  { intros r [<-|[<-|[]]]; split; simpl; lia. }
  split; [exact Hp|].
  destruct (Rev235636.run_due sample_db_235636_rules sample_now)
    as [[created|] db'] eqn:E; [|discriminate E].
  exists created, db'. split; [reflexivity|].
  destruct (proj2 (proj2 (rev235636_run_due_repeats sample_db_235636_rules
                            sample_now Hp)) created db' E)
    as (_ & _ & _ & created2 & db2 & H2 & Hl & _).
  now exists created2, db2.
Defined.

(** X17: an edit of the later revision keeps the ids, categories and
    timestamps of all rows, in their order; the rows of another id are
    what they were, the row of the edited id holds the amount, description
    and flag of the request; the answer is "not found" exactly when no row
    has the id, the other tables are untouched, and repeating the edit
    gives the same answer and changes nothing more. *)
Theorem rev235636_edit_frame :
  forall (db : Rev235636.database) (p : Rev235636.EditRequest),
    let res := fst (Rev235636.edit_transaction db p) in
    let db' := snd (Rev235636.edit_transaction db p) in
    map Rev235636.tx_id (Rev235636.transactions db')
    = map Rev235636.tx_id (Rev235636.transactions db) /\
    map Rev235636.tx_category (Rev235636.transactions db')
    = map Rev235636.tx_category (Rev235636.transactions db) /\
    map Rev235636.tx_ts (Rev235636.transactions db')
    = map Rev235636.tx_ts (Rev235636.transactions db) /\
    (forall r, Rev235636.tx_id r <> Rev235636.e_id p ->
       (In r (Rev235636.transactions db') <-> In r (Rev235636.transactions db))) /\
    (forall r, In r (Rev235636.transactions db') ->
       Rev235636.tx_id r = Rev235636.e_id p ->
       Rev235636.tx_amount r = Rev235636.e_amount p /\
       Rev235636.tx_description r = Rev235636.e_description p /\
       Rev235636.tx_is_expense r = Rev235636.e_is_expense p) /\
    (res = Rev235636.edit_not_found <->
     ~ In (Rev235636.e_id p) (map Rev235636.tx_id (Rev235636.transactions db))) /\
    Rev235636.budgets db' = Rev235636.budgets db /\
    Rev235636.goals db' = Rev235636.goals db /\
    Rev235636.recurring db' = Rev235636.recurring db /\
    Rev235636.edit_transaction db' p = (res, db').
Proof.
  intros db p. cbv zeta.
  destruct (edit_transaction_rows db p) as [[Hno E]|[(x & Hx & Hxi) E]];
    rewrite E; cbn [fst snd].
  - split; [reflexivity|]. split; [reflexivity|]. split; [reflexivity|].
    split; [intros r _; tauto|]. split.
    { intros r Hr Hid. exfalso. exact (Hno r Hr Hid). }
    split.
    { split; [|reflexivity]. intros _ Hin. apply in_map_iff in Hin.
      destruct Hin as (r & Hid & Hr). exact (Hno r Hr Hid). }
    split; [reflexivity|]. split; [reflexivity|]. split; [reflexivity|]. exact E.
  - set (upd := fun r : Rev235636.Transaction =>
                  if Rev235636.tx_id r =? Rev235636.e_id p then
                    Rev235636.mkTransaction (Rev235636.tx_id r) (Rev235636.e_amount p)
                      (Rev235636.tx_category r) (Rev235636.e_description p)
                      (Rev235636.tx_ts r) (Rev235636.e_is_expense p)
                  else r) in *.
    cbn [Rev235636.set_transactions Rev235636.transactions Rev235636.budgets
         Rev235636.goals Rev235636.recurring].
    assert (Hid : forall r, Rev235636.tx_id (upd r) = Rev235636.tx_id r).
    { intros r. unfold upd. now destruct (Rev235636.tx_id r =? Rev235636.e_id p). }
    assert (Hcat : forall r, Rev235636.tx_category (upd r) = Rev235636.tx_category r).
    { intros r. unfold upd. now destruct (Rev235636.tx_id r =? Rev235636.e_id p). }
    assert (Hts : forall r, Rev235636.tx_ts (upd r) = Rev235636.tx_ts r).
    { intros r. unfold upd. now destruct (Rev235636.tx_id r =? Rev235636.e_id p). }
    assert (Hother : forall r, Rev235636.tx_id r <> Rev235636.e_id p -> upd r = r).
    { intros r Hr. unfold upd. apply Z.eqb_neq in Hr. now rewrite Hr. }
    assert (Hidem : forall r, upd (upd r) = upd r).
    { intros r. unfold upd at 2 3.
      destruct (Rev235636.tx_id r =? Rev235636.e_id p) eqn:Er.
      - unfold upd. cbn [Rev235636.tx_id Rev235636.tx_category Rev235636.tx_ts].
        now rewrite Er.
      - apply Hother. now apply Z.eqb_neq. }
    split; [rewrite map_map; apply map_ext; exact Hid|].
    split; [rewrite map_map; apply map_ext; exact Hcat|].
    split; [rewrite map_map; apply map_ext; exact Hts|].
    split.
    { intros r Hr. rewrite in_map_iff. split.
      - intros (y & Hy & Hin).
        assert (Hyid : Rev235636.tx_id y <> Rev235636.e_id p).
        { rewrite <- (Hid y), Hy. exact Hr. }
        rewrite (Hother y Hyid) in Hy. now subst y.
      - intros Hin. exists r. split; [now apply Hother | exact Hin]. }
    split.
    { intros r Hin Hr. apply in_map_iff in Hin. destruct Hin as (y & <- & _).
      rewrite Hid in Hr. unfold upd. apply Z.eqb_eq in Hr. rewrite Hr.
      now repeat split. }
    split.
    { split; [discriminate|]. intros Hn. exfalso. apply Hn.
      rewrite <- Hxi. now apply in_map. }
    split; [reflexivity|]. split; [reflexivity|]. split; [reflexivity|].
    set (db' := Rev235636.set_transactions db
                  (map upd (Rev235636.transactions db))).
    destruct (edit_transaction_rows db' p) as [[Hno' _]|[_ E']].
    + exfalso. apply (Hno' (upd x)).
      * apply in_map. exact Hx.
      * now rewrite Hid.
    + rewrite E'. unfold db'.
      cbn [Rev235636.set_transactions Rev235636.transactions Rev235636.budgets
           Rev235636.goals Rev235636.recurring].
      fold upd. rewrite map_map.
      now rewrite (map_ext (fun r => upd (upd r)) upd Hidem).
Qed.




(** * The cleaned answer *)

(** X19: cleaning the answer of the model removes every asterisk, hyphen
    and underscore and nothing else, whether asterisks come in pairs or
    not: hyphens inside words and numbers go as well. Cleaning twice is
    cleaning once. *)
Theorem clean_text_removes_markup :
  forall raw : text,
    Rev155147.clean_text raw = filter (fun c => negb (is_markup c)) raw /\
    Rev155147.clean_text (Rev155147.clean_text raw) = Rev155147.clean_text raw.
Proof.
  assert (Heq : forall (n : nat) (raw : text),
            (List.length raw <= n)%nat ->
            Rev155147.clean_text raw = filter (fun c => negb (is_markup c)) raw).
  { induction n as [|n IH]; intros [|c raw] Hn; try reflexivity;
      cbn [List.length] in Hn; [lia|].
    cbn [Rev155147.clean_text filter]. unfold is_markup at 1.
    destruct (Ascii.eqb c "*") eqn:Es; cbn [orb negb].
    - destruct raw as [|c' raw]; [reflexivity|].
      cbn [List.length] in Hn.
      destruct (Ascii.eqb c' "*") eqn:Es'.
      + cbn [filter]. unfold is_markup at 1. rewrite Es'. cbn [orb negb].
        apply IH. lia.
      + apply IH. cbn [List.length]. lia.
    - destruct (Ascii.eqb c "-" || Ascii.eqb c "_"); cbn [negb].
      + apply IH. lia.
      + f_equal. apply IH. lia. }
  intros raw. split; [now apply (Heq (List.length raw))|].
  rewrite (Heq _ (Rev155147.clean_text raw) (le_n _)).
  rewrite (Heq _ raw (le_n _)).
  rewrite filter_filter. apply filter_ext. intros c. apply andb_diag.
Qed.

(** * A message that is a number *)

Lemma plain_lower_char (c : ascii) :
  is_digit c || is_space c = true -> lower_char c = c.
Proof.
  destruct c as [[] [] [] [] [] [] [] []]; intros H; try reflexivity;
    discriminate H.
Qed.

Lemma stripped_digits_plain (t : text) :
  isdigit (strip t) = true ->
  t <> [] /\ Forall (fun c => is_digit c || is_space c = true) t.
Proof.
  intros H. split.
  - intros ->. discriminate H.
  - destruct (strip_Trimmed t) as (ws1 & ws2 & Ht & H1 & H2 & _).
    assert (Hd : Forall (fun c => is_digit c = true) (strip t)).
    { apply Forall_forall, forallb_forall. unfold isdigit in H.
      destruct (strip t); [discriminate | exact H]. }
    rewrite Ht. repeat (apply Forall_app; split);
      eapply Forall_impl; try eassumption; cbv beta; intros c Hc; rewrite Hc;
      auto using orb_true_r.
Qed.

Lemma contains_letter (kw t : text) (k : ascii) :
  hd_error kw = Some k ->
  Forall (fun c => is_digit c || is_space c = true) t ->
  is_digit k || is_space k = false ->
  contains kw t = false.
Proof.
  intros Hk Ht Hplain. destruct (contains kw t) eqn:E; [|reflexivity].
  apply contains_Contains in E. destruct E as (pre & post & ->).
  destruct kw as [|k' kw]; [discriminate|]. injection Hk as ->.
  apply Forall_app in Ht. destruct Ht as [_ Ht].
  inversion Ht as [|? ? Hc _]; subst. congruence.
Qed.

(** X20: a message that is only a number, with or without blanks around
    it, is never taken for a command with a keyword: with at most six
    digits it looks the transaction of that id up, answering with the row
    or with 404, and with seven digits or more it is not understood. The
    database is unchanged in each case. *)
Theorem numeric_message :
  forall (db : Rev155147.database) (t : text) (utcnow now : datetime),
    isdigit (strip t) = true ->
    Rev155147.handle_command db (Some t) utcnow now
    = if Nat.ltb (List.length (strip t)) 7 then
        match Rev155147.find_transaction (int_of (strip t))
                (Rev155147.transactions db) with
        | Some tx => (Rev155147.JSONResponse (Rev155147.transaction_of tx), db)
        | None => (Rev155147.HTTPException 404 "transaction not found", db)
        end
      else (Rev155147.JSONResponse
              (Rev155147.not_understood Rev155147.parsed_unknown), db).
Proof.
  intros db t utcnow now Hd.
  destruct (stripped_digits_plain t Hd) as [Hne Hplain].
  assert (Hlow : lower t = t).
  { unfold lower. rewrite <- (map_id t) at 2. apply map_ext_in.
    intros c Hc. apply plain_lower_char.
    rewrite Forall_forall in Hplain. now apply Hplain. }
  assert (Hno : forall kw k, hd_error (txt kw) = Some k ->
                             is_digit k || is_space k = false ->
                             Rev155147.has kw t = false).
  { intros kw k Hk Hp. unfold Rev155147.has.
    exact (contains_letter _ _ _ Hk Hplain Hp). }
  assert (Hparse : Rev155147.parse_command t utcnow
                   = if Nat.ltb (List.length (strip t)) 7
                     then Rev155147.parsed_get_tx (int_of (strip t))
                     else Rev155147.parsed_unknown).
  { unfold Rev155147.parse_command. cbv zeta. rewrite Hlow.
    rewrite (Hno "spent"%string _ eq_refl eq_refl), (Hno "bought"%string _ eq_refl eq_refl),
      (Hno "pay"%string _ eq_refl eq_refl), (Hno "purchase"%string _ eq_refl eq_refl),
      (Hno "earned"%string _ eq_refl eq_refl), (Hno "salary"%string _ eq_refl eq_refl),
      (Hno "received"%string _ eq_refl eq_refl), (Hno "summary"%string _ eq_refl eq_refl),
      (Hno "balance"%string _ eq_refl eq_refl), (Hno "list"%string _ eq_refl eq_refl),
      (Hno "transactions"%string _ eq_refl eq_refl), (Hno "delete"%string _ eq_refl eq_refl),
      (Hno "remove"%string _ eq_refl eq_refl).
    cbn [orb]. rewrite Hd. reflexivity. }
  unfold Rev155147.handle_command. destruct t as [|c t]; [contradiction|].
  rewrite Hparse.
  destruct (Nat.ltb (List.length (strip (c :: t))) 7); reflexivity.
Qed.

Lemma numeric_message_witness :
  isdigit (strip (txt " 2 ")) = true /\
  exists tx,
    Rev155147.handle_command sample_db (Some (txt " 2 ")) sample_now sample_now
    = (Rev155147.JSONResponse (Rev155147.transaction_of tx), sample_db) /\
    Rev155147.tx_id tx = 2.
Proof.
  split; [reflexivity|]. eexists.
  rewrite (numeric_message sample_db (txt " 2 ") sample_now sample_now eq_refl).
  split; reflexivity.
Defined.

(** * The summary after an addition *)





(** * The ids of the ledger under the scheduler *)

Lemma insert_all_ids (new : list Rev155147.pending) :
  Forall (fun mk : Rev155147.pending => forall id, Rev155147.tx_id (mk id) = id) new ->
  forall rows,
    NoDup (map Rev155147.tx_id rows) ->
    NoDup (map Rev155147.tx_id (Rev155147.insert_all rows new)).
Proof.
  unfold Rev155147.insert_all.
  induction 1 as [|mk new Hmk _ IH]; intros rows Hnd; cbn [fold_left];
    [exact Hnd|].
  apply IH. rewrite map_app. cbn [map]. rewrite Hmk.
  now apply NoDup_snoc_fresh.
Qed.

Lemma run_rules_ids (today : date) (rules : list Rev155147.RecurringTransaction) :
  forall rs txs cs,
    Rev155147.run_rules today rules = Some (rs, txs, cs) ->
    map Rev155147.r_id rs = map Rev155147.r_id rules /\
    Forall (fun mk : Rev155147.pending =>
              forall id, Rev155147.tx_id (mk id) = id /\
                         exists r, In r rules /\
                                   Rev155147.tx_recurring_id (mk id)
                                   = Some (Rev155147.r_id r)) txs.
Proof.
  induction rules as [|r rules IH]; cbn [Rev155147.run_rules]; intros rs txs cs.
  - intros H; injection H as <- <- <-. split; [reflexivity | constructor].
  - assert (Hweak : forall txs0,
              Forall (fun mk : Rev155147.pending =>
                        forall id, Rev155147.tx_id (mk id) = id /\
                                   exists x, In x rules /\
                                             Rev155147.tx_recurring_id (mk id)
                                             = Some (Rev155147.r_id x)) txs0 ->
              Forall (fun mk : Rev155147.pending =>
                        forall id, Rev155147.tx_id (mk id) = id /\
                                   exists x, In x (r :: rules) /\
                                             Rev155147.tx_recurring_id (mk id)
                                             = Some (Rev155147.r_id x)) txs0).
    { intros txs0 H. eapply Forall_impl; [|exact H]. cbv beta.
      intros mk Hmk id. destruct (Hmk id) as (Hid & x & Hx & Hr).
      split; [exact Hid|]. exists x. split; [now right | exact Hr]. }
    destruct (Rev155147.r_next_run r) as [d|].
    + destruct (date_leb d today).
      * destruct (Rev155147.advance (Rev155147.r_interval r) d) as [d'|];
          [|discriminate].
        destruct (Rev155147.run_rules today rules) as [[[rs0 txs0] cs0]|];
          [|discriminate].
        destruct (IH _ _ _ eq_refl) as [Hids Htx].
        intros H; injection H as <- <- <-. cbn [map Rev155147.set_next_run Rev155147.r_id].
        rewrite Hids. split; [reflexivity|].
        constructor; [|now apply Hweak].
        intros id. split; [reflexivity|]. exists r. split; [now left | reflexivity].
      * destruct (Rev155147.run_rules today rules) as [[[rs0 txs0] cs0]|];
          [|discriminate].
        destruct (IH _ _ _ eq_refl) as [Hids Htx].
        intros H; injection H as <- <- <-. cbn [map]. rewrite Hids.
        split; [reflexivity | now apply Hweak].
    + destruct (Rev155147.run_rules today rules) as [[[rs0 txs0] cs0]|];
        [|discriminate].
      destruct (IH _ _ _ eq_refl) as [Hids Htx].
      intros H; injection H as <- <- <-. cbn [map]. rewrite Hids.
      split; [reflexivity | now apply Hweak].
Qed.

(** X22: whatever the rules hold and whether the pass raises or not, a
    pass of the scheduler keeps the transaction ids distinct, keeps the
    rows it found as they were, before the new ones, links every new row
    to a rule of the table, keeps the ids of the rules in their order, and
    does not touch budgets and goals. *)
Theorem run_due_ids :
  forall (db : Rev155147.database) (today : date),
    NoDup (map Rev155147.tx_id (Rev155147.transactions db)) ->
    let db' := snd (Rev155147.run_due_recurrences db today) in
    NoDup (map Rev155147.tx_id (Rev155147.transactions db')) /\
    (exists new,
       Rev155147.transactions db' = Rev155147.transactions db ++ new /\
       Forall (fun tx => exists r, In r (Rev155147.recurring db) /\
                                   Rev155147.tx_recurring_id tx
                                   = Some (Rev155147.r_id r)) new) /\
    map Rev155147.r_id (Rev155147.recurring db')
    = map Rev155147.r_id (Rev155147.recurring db) /\
    Rev155147.budgets db' = Rev155147.budgets db /\
    Rev155147.goals db' = Rev155147.goals db.
Proof.
  intros db today Hnd. cbv zeta. unfold Rev155147.run_due_recurrences.
  destruct (Rev155147.run_rules today (Rev155147.recurring db))
    as [[[rs txs] cs]|] eqn:E; cbn [snd].
  - destruct (run_rules_ids today _ _ _ _ E) as [Hids Htx].
    cbn [Rev155147.transactions Rev155147.recurring Rev155147.budgets
         Rev155147.goals].
    split.
    { apply insert_all_ids; [|exact Hnd].
      eapply Forall_impl; [|exact Htx]. cbv beta. intros mk H id. apply H. }
    split; [|now repeat split].
    destruct (insert_all_spec txs (Rev155147.transactions db)) as (new & -> & H2).
    exists new. split; [reflexivity|].
    clear -H2 Htx. induction H2 as [|mk tx txs new (id & ->) _ IH]; [constructor|].
    inversion Htx as [|? ? Hmk Hrest]; subst.
    constructor; [exact (proj2 (Hmk id)) | now apply IH].
  - split; [exact Hnd|]. split; [|now repeat split].
    exists []. rewrite app_nil_r. split; [reflexivity | constructor].
Qed.

Lemma run_due_ids_witness :
  NoDup (map Rev155147.tx_id (Rev155147.transactions sample_db)) /\
  NoDup (map Rev155147.tx_id
           (Rev155147.transactions
              (snd (Rev155147.run_due_recurrences sample_db sample_today)))).
Proof.
  split; [exact sample_db_ids|].
  exact (proj1 (run_due_ids sample_db sample_today sample_db_ids)).
Defined.
